(** * BatteryService native poller: a shallow embedding

    Source: services/jni/com_android_server_BatteryService.cpp.

    The native half of the battery service scans /sys/class/power_supply once
    (register_android_server_BatteryService), remembers which pseudo-files
    exist, and on every native_update call reads them and stores the decoded
    values into fields of the Java BatteryService object.

    The embedding keeps the shape of the C++ code:
    - char buffers are [string]s of bytes, C string functions stop at NUL;
    - jint is a 32-bit two's complement integer carried in [Z];
    - the sysfs tree is a finite map from path to file;
    - JNI field stores and open(2) calls are effects of a small state monad
      whose only failure is the integer division trap. *)

From Stdlib Require Import ZArith String Ascii List Lia Bool.
From stdpp Require Import base gmap strings.
Import ListNotations.

Open Scope Z_scope.
Open Scope string_scope.
Open Scope list_scope.

(** ** C characters, buffers and strings *)

Module CStr.

Definition NUL : ascii := "000"%char.
Definition LF : ascii := "010"%char.

(** One-character string holding a newline, to build file contents. *)
Definition nl : string := String LF EmptyString.

(** [buf[i]] for a buffer whose stored bytes are [buf] and whose byte right
    after them is the terminator. *)
Definition char_at (buf : string) (i : nat) : ascii :=
  match String.get i buf with
  | Some c => c
  | None => NUL
  end.

(** [buf[i] = c]. *)
Fixpoint set_char (buf : string) (i : nat) (c : ascii) : string :=
  match buf, i with
  | EmptyString, _ => EmptyString
  | String _ rest, O => String c rest
  | String b rest, S j => String b (set_char rest j c)
  end.

(** The C string a buffer denotes: the bytes before its first NUL. *)
Fixpoint c_str (buf : string) : string :=
  match buf with
  | EmptyString => EmptyString
  | String c rest => if Ascii.eqb c NUL then EmptyString else String c (c_str rest)
  end.

(** No NUL byte among the stored bytes. *)
Fixpoint nul_free (s : string) : bool :=
  match s with
  | EmptyString => true
  | String c rest => negb (Ascii.eqb c NUL) && nul_free rest
  end.

Definition tail (s : string) : string :=
  match s with
  | EmptyString => EmptyString
  | String _ rest => rest
  end.

Definition code (c : ascii) : Z := Z.of_nat (nat_of_ascii c).

(** strcmp(3): bytes are compared as unsigned char up to and including the
    first terminator. *)
Fixpoint strcmp (a b : string) : Z :=
  match a with
  | EmptyString => 0 - code (char_at b 0)
  | String ca a' =>
      let cb := char_at b 0 in
      if Ascii.eqb ca cb
      then if Ascii.eqb ca NUL then 0 else strcmp a' (tail b)
      else code ca - code cb
  end.

(** isspace(3) in the C locale. *)
Definition isspace (c : ascii) : bool :=
  let n := nat_of_ascii c in
  (Nat.eqb n 32 || (Nat.leb 9 n && Nat.leb n 13))%bool.

Definition digit_of (c : ascii) : option Z :=
  let n := nat_of_ascii c in
  if (Nat.leb 48 n && Nat.leb n 57)%bool then Some (Z.of_nat (n - 48)) else None.

End CStr.

(** ** 32-bit integers *)

Module Int32.

Definition INT_MAX : Z := 2147483647.
Definition INT_MIN : Z := -2147483648.

Definition in_range (z : Z) : Prop := INT_MIN <= z <= INT_MAX.

(** Two's complement reduction to 32 bits. *)
Definition wrap (z : Z) : Z := (z + 2147483648) mod 4294967296 - 2147483648.

Definition clamp (z : Z) : Z := Z.max INT_MIN (Z.min INT_MAX z).

(** [a * b] on int. *)
Definition mul (a b : Z) : Z := wrap (a * b).

(** The operands on which the division instruction traps: a zero divisor,
    and INT_MIN / -1, whose quotient does not fit. *)
Definition traps (a b : Z) : Prop := b = 0 \/ (a = INT_MIN /\ b = -1).

(** [a / b] on int: the quotient rounds toward zero; a zero divisor traps,
    and so does INT_MIN / -1. *)
Definition div (a b : Z) : option Z :=
  if Z.eqb b 0 then None
  else if (Z.eqb a INT_MIN && Z.eqb b (-1))%bool then None
  else Some (wrap (Z.quot a b)).

End Int32.

(** ** atoi *)

Module Libc.
Import CStr.

Fixpoint skip_space (s : string) : string :=
  match s with
  | String c rest => if isspace c then skip_space rest else s
  | EmptyString => EmptyString
  end.

(** Decimal digits accumulated left to right, stopping at the first byte that
    is not a digit (the terminator included). *)
Fixpoint digits (acc : Z) (s : string) : Z :=
  match s with
  | String c rest =>
      match digit_of c with
      | Some d => digits (acc * 10 + d) rest
      | None => acc
      end
  | EmptyString => acc
  end.

Definition strtol10 (s : string) : Z :=
  match skip_space s with
  | String "-" rest => - digits 0 rest
  | String "+" rest => digits 0 rest
  | t => digits 0 t
  end.

(** atoi(3) as the platform C library has it: [(int)strtol(s, NULL, 10)]
    with a 32-bit long, so out-of-range input saturates. *)
Definition atoi (s : string) : Z := Int32.clamp (strtol10 s).

End Libc.

(** ** The sysfs tree *)

(** What open(2) + read(2) give for a path that can be opened: either read
    returns -1, or it returns the bytes of the pseudo-file. *)
Inductive file :=
| ReadError
| Data (bytes : string).

(** A path absent from [fs_files] cannot be opened and fails access(R_OK).
    [fs_dir] is what readdir yields for POWER_SUPPLY_PATH, in order, or
    [None] when opendir fails. *)
Record filesystem := {
  fs_files : gmap string file;
  fs_dir : option (list string)
}.

Definition POWER_SUPPLY_PATH : string := "/sys/class/power_supply".

(** [appendFormat("%s/%s/<leaf>", POWER_SUPPLY_PATH, name)] on a cleared path. *)
Definition supply_file (name leaf : string) : string :=
  POWER_SUPPLY_PATH +:+ "/" +:+ name +:+ "/" +:+ leaf.

(** String8::isEmpty *)
Definition isEmpty (s : string) : bool :=
  match s with
  | EmptyString => true
  | String _ _ => false
  end.

(** [access(path, R_OK) == 0] *)
Definition access (fs : filesystem) (path : string) : bool :=
  match fs_files fs !! path with
  | Some _ => true
  | None => false
  end.

(** ** Globals *)

Record BatteryManagerConstants := {
  statusUnknown : Z;
  statusCharging : Z;
  statusDischarging : Z;
  statusNotCharging : Z;
  statusFull : Z;
  healthUnknown : Z;
  healthGood : Z;
  healthOverheat : Z;
  healthDead : Z;
  healthOverVoltage : Z;
  healthUnspecifiedFailure : Z;
  healthCold : Z
}.

Record PowerSupplyPaths := {
  batteryStatusPath : string;
  batteryHealthPath : string;
  batteryPresentPath : string;
  batteryCapacityPath : string;
  batteryChargeNowPath : string;
  batteryChargeFullPath : string;
  batteryVoltagePath : string;
  batteryTemperaturePath : string;
  batteryTechnologyPath : string
}.

(** The file-scope statics.  gFieldIds is represented by the typed field
    names below; gConstants is whatever BatteryManager supplies. *)
Record globals := {
  gConstants : BatteryManagerConstants;
  gPaths : PowerSupplyPaths;
  gChargerNames : list string;
  gVoltageDivisor : Z
}.

Inductive PowerSupplyType :=
| ANDROID_POWER_SUPPLY_TYPE_UNKNOWN
| ANDROID_POWER_SUPPLY_TYPE_AC
| ANDROID_POWER_SUPPLY_TYPE_USB
| ANDROID_POWER_SUPPLY_TYPE_WIRELESS
| ANDROID_POWER_SUPPLY_TYPE_BATTERY.

(** ** String classifiers *)

Section Classifiers.
Import CStr.
Variable k : BatteryManagerConstants.

(** The ALOGW calls of the default branches are not modelled. *)
Definition getBatteryStatus (status : string) : Z :=
  let c := char_at status 0 in
  if Ascii.eqb c "C" then statusCharging k
  else if Ascii.eqb c "D" then statusDischarging k
  else if Ascii.eqb c "F" then statusFull k
  else if Ascii.eqb c "N" then statusNotCharging k
  else if Ascii.eqb c "U" then statusUnknown k
  else statusUnknown k.

Definition getBatteryHealth (status : string) : Z :=
  let c := char_at status 0 in
  if Ascii.eqb c "C" then healthCold k
  else if Ascii.eqb c "D" then healthDead k
  else if Ascii.eqb c "G" then healthGood k
  else if Ascii.eqb c "O" then
    if Z.eqb (strcmp status "Overheat") 0 then healthOverheat k
    else if Z.eqb (strcmp status "Over voltage") 0 then healthOverVoltage k
    else healthUnknown k
  else if Ascii.eqb c "U" then
    if Z.eqb (strcmp status "Unspecified failure") 0 then healthUnspecifiedFailure k
    else if Z.eqb (strcmp status "Unknown") 0 then healthUnknown k
    else (* falls through to default *) healthUnknown k
  else healthUnknown k.

End Classifiers.

(** ** Reading a pseudo-file *)

Section Reading.
Import CStr.
Variable fs : filesystem.

(** The loop [while (count > 0 && buf[count-1] == '\n') count--]. *)
Fixpoint trim_count (buf : string) (count : nat) : nat :=
  match count with
  | O => O
  | S c => if Ascii.eqb (char_at buf c) LF then trim_count buf c else count
  end.

(** readFromFile: the returned count and the bytes the buffer holds in front
    of the terminator stored at [buf[count]].  read(2) hands over the first
    [size] bytes of the file.  The store of the terminator is taken to land
    also when [count = size], one past the array.  When open fails the buffer
    is not touched; no caller looks at it then, and it is given as empty. *)
Definition readFromFile (path : string) (size : nat) : Z * string :=
  if isEmpty path then (-1, EmptyString)
  else match fs_files fs !! path with
       | None => (-1, EmptyString)
       | Some ReadError => (-1, EmptyString)
       | Some (Data bytes) =>
           let buf := String.substring 0 size bytes in
           let count := String.length buf in
           if Nat.ltb 0 count
           then let count' := trim_count buf count in
                (Z.of_nat count', String.substring 0 count' buf)
           else (0, EmptyString)
       end.

Definition readPowerSupplyType (path : string) : PowerSupplyType :=
  let SIZE := 128%nat in
  let '(length, buf) := readFromFile path SIZE in
  if Z.leb length 0 then ANDROID_POWER_SUPPLY_TYPE_UNKNOWN
  else
    let last := Z.to_nat (length - 1) in
    let buf := if Ascii.eqb (char_at buf last) LF then set_char buf last NUL else buf in
    if Z.eqb (strcmp buf "Battery") 0 then ANDROID_POWER_SUPPLY_TYPE_BATTERY
    else if (Z.eqb (strcmp buf "Mains") 0 || Z.eqb (strcmp buf "USB_DCP") 0
             || Z.eqb (strcmp buf "USB_CDP") 0 || Z.eqb (strcmp buf "USB_ACA") 0)%bool
    then ANDROID_POWER_SUPPLY_TYPE_AC
    else if Z.eqb (strcmp buf "USB") 0 then ANDROID_POWER_SUPPLY_TYPE_USB
    else if Z.eqb (strcmp buf "Wireless") 0 then ANDROID_POWER_SUPPLY_TYPE_WIRELESS
    else ANDROID_POWER_SUPPLY_TYPE_UNKNOWN.

End Reading.

(** ** The Java object and the effects of a poll *)

(** The jfieldIDs held in gFieldIds, grouped by JNI signature: "Z", "I" and
    "Ljava/lang/String;" (the latter has mBatteryTechnology alone). *)
Module gFieldIds.

Inductive boolean := mAcOnline | mUsbOnline | mWirelessOnline | mBatteryPresent.

Inductive int :=
| mBatteryStatus | mBatteryHealth | mBatteryLevel | mBatteryVoltage | mBatteryTemperature.

End gFieldIds.

(** The fields of com.android.server.BatteryService that native_update
    stores to; [None] in batteryTechnology is the null reference. *)
Record BatterySnapshot := {
  acOnline : bool;
  usbOnline : bool;
  wirelessOnline : bool;
  batteryPresent : bool;
  batteryStatus : Z;
  batteryHealth : Z;
  batteryLevel : Z;
  batteryVoltage : Z;
  batteryTemperature : Z;
  batteryTechnology : option string
}.

Definition get_boolean (f : gFieldIds.boolean) (o : BatterySnapshot) : bool :=
  match f with
  | gFieldIds.mAcOnline => acOnline o
  | gFieldIds.mUsbOnline => usbOnline o
  | gFieldIds.mWirelessOnline => wirelessOnline o
  | gFieldIds.mBatteryPresent => batteryPresent o
  end.

Definition get_int (f : gFieldIds.int) (o : BatterySnapshot) : Z :=
  match f with
  | gFieldIds.mBatteryStatus => batteryStatus o
  | gFieldIds.mBatteryHealth => batteryHealth o
  | gFieldIds.mBatteryLevel => batteryLevel o
  | gFieldIds.mBatteryVoltage => batteryVoltage o
  | gFieldIds.mBatteryTemperature => batteryTemperature o
  end.

Definition put_boolean (f : gFieldIds.boolean) (v : bool) (o : BatterySnapshot) : BatterySnapshot :=
  {| acOnline := match f with gFieldIds.mAcOnline => v | _ => acOnline o end;
     usbOnline := match f with gFieldIds.mUsbOnline => v | _ => usbOnline o end;
     wirelessOnline := match f with gFieldIds.mWirelessOnline => v | _ => wirelessOnline o end;
     batteryPresent := match f with gFieldIds.mBatteryPresent => v | _ => batteryPresent o end;
     batteryStatus := batteryStatus o;
     batteryHealth := batteryHealth o;
     batteryLevel := batteryLevel o;
     batteryVoltage := batteryVoltage o;
     batteryTemperature := batteryTemperature o;
     batteryTechnology := batteryTechnology o |}.

Definition put_int (f : gFieldIds.int) (v : Z) (o : BatterySnapshot) : BatterySnapshot :=
  {| acOnline := acOnline o;
     usbOnline := usbOnline o;
     wirelessOnline := wirelessOnline o;
     batteryPresent := batteryPresent o;
     batteryStatus := match f with gFieldIds.mBatteryStatus => v | _ => batteryStatus o end;
     batteryHealth := match f with gFieldIds.mBatteryHealth => v | _ => batteryHealth o end;
     batteryLevel := match f with gFieldIds.mBatteryLevel => v | _ => batteryLevel o end;
     batteryVoltage := match f with gFieldIds.mBatteryVoltage => v | _ => batteryVoltage o end;
     batteryTemperature :=
       match f with gFieldIds.mBatteryTemperature => v | _ => batteryTemperature o end;
     batteryTechnology := batteryTechnology o |}.

Definition put_technology (v : option string) (o : BatterySnapshot) : BatterySnapshot :=
  {| acOnline := acOnline o;
     usbOnline := usbOnline o;
     wirelessOnline := wirelessOnline o;
     batteryPresent := batteryPresent o;
     batteryStatus := batteryStatus o;
     batteryHealth := batteryHealth o;
     batteryLevel := batteryLevel o;
     batteryVoltage := batteryVoltage o;
     batteryTemperature := batteryTemperature o;
     batteryTechnology := v |}.

(** What a poll does to the outside: open(2) calls and JNI field stores. *)
Inductive event :=
| EvOpen (path : string)
| EvSetBoolean (f : gFieldIds.boolean) (v : bool)
| EvSetInt (f : gFieldIds.int) (v : Z)
| EvSetTechnology (v : string).

Record world := {
  obj : BatterySnapshot;
  trace : list event
}.

Inductive fault := SIGFPE.

Inductive outcome (A : Type) :=
| Done (a : A) (w : world)
| Crash (f : fault).
Arguments Done {A} a w.
Arguments Crash {A} f.

Definition M (A : Type) : Type := world -> outcome A.

Definition ret {A} (a : A) : M A := fun w => Done a w.

Definition bind {A B} (m : M A) (f : A -> M B) : M B :=
  fun w => match m w with
           | Done a w' => f a w'
           | Crash e => Crash e
           end.

Definition raise {A} (e : fault) : M A := fun _ => Crash e.

Definition emit (e : event) : M unit :=
  fun w => Done tt {| obj := obj w; trace := trace w ++ [e] |}.

Definition modify (f : BatterySnapshot -> BatterySnapshot) : M unit :=
  fun w => Done tt {| obj := f (obj w); trace := trace w |}.

Declare Scope poll_scope.
Delimit Scope poll_scope with poll.
Notation "x <- c ;; k" := (bind c (fun x => k))
  (at level 100, c at next level, right associativity) : poll_scope.
Notation "c ;; k" := (bind c (fun _ => k))
  (at level 100, right associativity) : poll_scope.
Open Scope poll_scope.

(** env->SetBooleanField, env->SetIntField, env->SetObjectField *)
Definition SetBooleanField (f : gFieldIds.boolean) (v : bool) : M unit :=
  emit (EvSetBoolean f v) ;; modify (put_boolean f v).

Definition SetIntField (f : gFieldIds.int) (v : Z) : M unit :=
  emit (EvSetInt f v) ;; modify (put_int f v).

Definition SetTechnology (v : string) : M unit :=
  emit (EvSetTechnology v) ;; modify (put_technology (Some v)).

(** ** The value readers and native_update *)

Section Poll.
Import CStr Libc.
Variable g : globals.
Variable fs : filesystem.

(** The open(2) call readFromFile makes: none for an empty path. *)
Definition opens (path : string) : list event :=
  if isEmpty path then [] else [EvOpen path].

Definition record_opens (path : string) : M unit :=
  fun w => Done tt {| obj := obj w; trace := trace w ++ opens path |}.

(** readFromFile as a step of the poll: its open is recorded. *)
Definition readFromFileM (path : string) (size : nat) : M (Z * string) :=
  record_opens path ;; ret (readFromFile fs path size).

Definition readPowerSupplyTypeM (path : string) : M PowerSupplyType :=
  record_opens path ;; ret (readPowerSupplyType fs path).

Definition setBooleanField (path : string) (fieldID : gFieldIds.boolean) : M unit :=
  let SIZE := 16%nat in
  r <- readFromFileM path SIZE ;;
  let '(n, buf) := r in
  let value :=
    if Z.ltb 0 n
    then if negb (Ascii.eqb (char_at buf 0) "0") then true else false
    else false in
  SetBooleanField fieldID value.

Definition setIntField (path : string) (fieldID : gFieldIds.int) : M unit :=
  let SIZE := 128%nat in
  r <- readFromFileM path SIZE ;;
  let '(n, buf) := r in
  let value := if Z.ltb 0 n then atoi buf else 0 in
  SetIntField fieldID value.

Definition setVoltageField (path : string) (fieldID : gFieldIds.int) : M unit :=
  let SIZE := 128%nat in
  r <- readFromFileM path SIZE ;;
  let '(n, buf) := r in
  if Z.ltb 0 n
  then match Int32.div (atoi buf) (gVoltageDivisor g) with
       | Some value => SetIntField fieldID value
       | None => raise SIGFPE
       end
  else SetIntField fieldID 0.

(** [&&] does not evaluate the second read when the first one fails. *)
Definition setChargeLevel (fieldID : gFieldIds.int) : M unit :=
  r1 <- readFromFileM (batteryChargeNowPath (gPaths g)) 128 ;;
  let '(n1, buf1) := r1 in
  if Z.ltb 0 n1
  then
    r2 <- readFromFileM (batteryChargeFullPath (gPaths g)) 128 ;;
    let '(n2, buf2) := r2 in
    if Z.ltb 0 n2
    then match Int32.div (Int32.mul (atoi buf1) 100) (atoi buf2) with
         | Some value => SetIntField fieldID value
         | None => raise SIGFPE
         end
    else ret tt
  else ret tt.

(** The three locals acOnline, usbOnline, wirelessOnline of the update. *)
Record flags := {
  ac : bool;
  usb : bool;
  wireless : bool
}.

(** One iteration of the loop over gChargerNames. *)
Definition poll_charger (name : string) (o : flags) : M flags :=
  let SIZE := 128%nat in
  r <- readFromFileM (supply_file name "online") SIZE ;;
  let '(n, buf) := r in
  if Z.ltb 0 n
  then
    if negb (Ascii.eqb (char_at buf 0) "0")
    then
      t <- readPowerSupplyTypeM (supply_file name "type") ;;
      match t with
      | ANDROID_POWER_SUPPLY_TYPE_AC =>
          ret {| ac := true; usb := usb o; wireless := wireless o |}
      | ANDROID_POWER_SUPPLY_TYPE_USB =>
          ret {| ac := ac o; usb := true; wireless := wireless o |}
      | ANDROID_POWER_SUPPLY_TYPE_WIRELESS =>
          ret {| ac := ac o; usb := usb o; wireless := true |}
      | _ => ret o
      end
    else ret o
  else ret o.

(** [for (i = 0; i < gChargerNames.size(); i++)]: [names] is what is left of
    the vector from index [i] on; the result carries the final [i]. *)
Fixpoint poll_chargers (names : list string) (i : nat) (o : flags) : M (nat * flags) :=
  match names with
  | [] => ret (i, o)
  | name :: rest =>
      o' <- poll_charger name o ;;
      poll_chargers rest (S i) o'
  end.

(** Lines 248-258: presence and level. *)
Definition update_level : M unit :=
  setBooleanField (batteryPresentPath (gPaths g)) gFieldIds.mBatteryPresent ;;
  if isEmpty (batteryPresentPath (gPaths g))
  then SetIntField gFieldIds.mBatteryLevel 100
  else if isEmpty (batteryCapacityPath (gPaths g))
       then setChargeLevel gFieldIds.mBatteryLevel
       else setIntField (batteryCapacityPath (gPaths g)) gFieldIds.mBatteryLevel.

(** Lines 259-275: voltage, temperature, status, health, technology. *)
Definition update_attributes : M unit :=
  let SIZE := 128%nat in
  setVoltageField (batteryVoltagePath (gPaths g)) gFieldIds.mBatteryVoltage ;;
  setIntField (batteryTemperaturePath (gPaths g)) gFieldIds.mBatteryTemperature ;;
  r <- readFromFileM (batteryStatusPath (gPaths g)) SIZE ;;
  (if Z.ltb 0 (fst r)
   then SetIntField gFieldIds.mBatteryStatus (getBatteryStatus (gConstants g) (snd r))
   else SetIntField gFieldIds.mBatteryStatus (statusUnknown (gConstants g))) ;;
  r <- readFromFileM (batteryHealthPath (gPaths g)) SIZE ;;
  (if Z.ltb 0 (fst r)
   then SetIntField gFieldIds.mBatteryHealth (getBatteryHealth (gConstants g) (snd r))
   else ret tt) ;;
  r <- readFromFileM (batteryTechnologyPath (gPaths g)) SIZE ;;
  (if Z.ltb 0 (fst r)
   then SetTechnology (c_str (snd r))
   else ret tt).

(** Lines 277-318: the charger flags. *)
Definition update_chargers : M unit :=
  r <- poll_chargers (gChargerNames g) 0
         {| ac := false; usb := false; wireless := false |} ;;
  let '(i, o) := r in
  let acOnline := if Nat.eqb i 0 then true else ac o in
  SetBooleanField gFieldIds.mAcOnline acOnline ;;
  SetBooleanField gFieldIds.mUsbOnline (usb o) ;;
  SetBooleanField gFieldIds.mWirelessOnline (wireless o).

Definition android_server_BatteryService_update : M unit :=
  update_level ;;
  update_attributes ;;
  update_chargers.

End Poll.

(** ** Discovery *)

(** Assignments [gPaths.member = path]. *)
Definition set_batteryStatusPath (v : string) (p : PowerSupplyPaths) : PowerSupplyPaths :=
  {| batteryStatusPath := v;
     batteryHealthPath := batteryHealthPath p;
     batteryPresentPath := batteryPresentPath p;
     batteryCapacityPath := batteryCapacityPath p;
     batteryChargeNowPath := batteryChargeNowPath p;
     batteryChargeFullPath := batteryChargeFullPath p;
     batteryVoltagePath := batteryVoltagePath p;
     batteryTemperaturePath := batteryTemperaturePath p;
     batteryTechnologyPath := batteryTechnologyPath p |}.

Definition set_batteryHealthPath (v : string) (p : PowerSupplyPaths) : PowerSupplyPaths :=
  {| batteryStatusPath := batteryStatusPath p;
     batteryHealthPath := v;
     batteryPresentPath := batteryPresentPath p;
     batteryCapacityPath := batteryCapacityPath p;
     batteryChargeNowPath := batteryChargeNowPath p;
     batteryChargeFullPath := batteryChargeFullPath p;
     batteryVoltagePath := batteryVoltagePath p;
     batteryTemperaturePath := batteryTemperaturePath p;
     batteryTechnologyPath := batteryTechnologyPath p |}.

Definition set_batteryPresentPath (v : string) (p : PowerSupplyPaths) : PowerSupplyPaths :=
  {| batteryStatusPath := batteryStatusPath p;
     batteryHealthPath := batteryHealthPath p;
     batteryPresentPath := v;
     batteryCapacityPath := batteryCapacityPath p;
     batteryChargeNowPath := batteryChargeNowPath p;
     batteryChargeFullPath := batteryChargeFullPath p;
     batteryVoltagePath := batteryVoltagePath p;
     batteryTemperaturePath := batteryTemperaturePath p;
     batteryTechnologyPath := batteryTechnologyPath p |}.

Definition set_batteryCapacityPath (v : string) (p : PowerSupplyPaths) : PowerSupplyPaths :=
  {| batteryStatusPath := batteryStatusPath p;
     batteryHealthPath := batteryHealthPath p;
     batteryPresentPath := batteryPresentPath p;
     batteryCapacityPath := v;
     batteryChargeNowPath := batteryChargeNowPath p;
     batteryChargeFullPath := batteryChargeFullPath p;
     batteryVoltagePath := batteryVoltagePath p;
     batteryTemperaturePath := batteryTemperaturePath p;
     batteryTechnologyPath := batteryTechnologyPath p |}.

Definition set_batteryChargeNowPath (v : string) (p : PowerSupplyPaths) : PowerSupplyPaths :=
  {| batteryStatusPath := batteryStatusPath p;
     batteryHealthPath := batteryHealthPath p;
     batteryPresentPath := batteryPresentPath p;
     batteryCapacityPath := batteryCapacityPath p;
     batteryChargeNowPath := v;
     batteryChargeFullPath := batteryChargeFullPath p;
     batteryVoltagePath := batteryVoltagePath p;
     batteryTemperaturePath := batteryTemperaturePath p;
     batteryTechnologyPath := batteryTechnologyPath p |}.

Definition set_batteryChargeFullPath (v : string) (p : PowerSupplyPaths) : PowerSupplyPaths :=
  {| batteryStatusPath := batteryStatusPath p;
     batteryHealthPath := batteryHealthPath p;
     batteryPresentPath := batteryPresentPath p;
     batteryCapacityPath := batteryCapacityPath p;
     batteryChargeNowPath := batteryChargeNowPath p;
     batteryChargeFullPath := v;
     batteryVoltagePath := batteryVoltagePath p;
     batteryTemperaturePath := batteryTemperaturePath p;
     batteryTechnologyPath := batteryTechnologyPath p |}.

Definition set_batteryVoltagePath (v : string) (p : PowerSupplyPaths) : PowerSupplyPaths :=
  {| batteryStatusPath := batteryStatusPath p;
     batteryHealthPath := batteryHealthPath p;
     batteryPresentPath := batteryPresentPath p;
     batteryCapacityPath := batteryCapacityPath p;
     batteryChargeNowPath := batteryChargeNowPath p;
     batteryChargeFullPath := batteryChargeFullPath p;
     batteryVoltagePath := v;
     batteryTemperaturePath := batteryTemperaturePath p;
     batteryTechnologyPath := batteryTechnologyPath p |}.

Definition set_batteryTemperaturePath (v : string) (p : PowerSupplyPaths) : PowerSupplyPaths :=
  {| batteryStatusPath := batteryStatusPath p;
     batteryHealthPath := batteryHealthPath p;
     batteryPresentPath := batteryPresentPath p;
     batteryCapacityPath := batteryCapacityPath p;
     batteryChargeNowPath := batteryChargeNowPath p;
     batteryChargeFullPath := batteryChargeFullPath p;
     batteryVoltagePath := batteryVoltagePath p;
     batteryTemperaturePath := v;
     batteryTechnologyPath := batteryTechnologyPath p |}.

Definition set_batteryTechnologyPath (v : string) (p : PowerSupplyPaths) : PowerSupplyPaths :=
  {| batteryStatusPath := batteryStatusPath p;
     batteryHealthPath := batteryHealthPath p;
     batteryPresentPath := batteryPresentPath p;
     batteryCapacityPath := batteryCapacityPath p;
     batteryChargeNowPath := batteryChargeNowPath p;
     batteryChargeFullPath := batteryChargeFullPath p;
     batteryVoltagePath := batteryVoltagePath p;
     batteryTemperaturePath := batteryTemperaturePath p;
     batteryTechnologyPath := v |}.

Section Discovery.
Import CStr.
Variable fs : filesystem.

(** [name[0] == '.' && (name[1] == 0 || (name[1] == '.' && name[2] == 0))] *)
Definition is_dot_entry (name : string) : bool :=
  (Ascii.eqb (char_at name 0) "."
   && (Ascii.eqb (char_at name 1) NUL
       || (Ascii.eqb (char_at name 1) "." && Ascii.eqb (char_at name 2) NUL)))%bool.

(** Lines 370-396: capacity, or else the charge pair, or else the energy pair. *)
Definition scan_capacity (name : string) (p : PowerSupplyPaths) : PowerSupplyPaths :=
  let path := supply_file name "capacity" in
  if access fs path then set_batteryCapacityPath path p
  else
    let path := supply_file name "charge_now" in
    if access fs path then
      let p := set_batteryChargeNowPath path p in
      let path := supply_file name "charge_full" in
      if access fs path then set_batteryChargeFullPath path p else p
    else
      let path := supply_file name "energy_now" in
      if access fs path then
        let p := set_batteryChargeNowPath path p in
        let path := supply_file name "energy_full" in
        if access fs path then set_batteryChargeFullPath path p else p
      else p.

(** Lines 397-408: the voltage path and gVoltageDivisor. *)
Definition scan_voltage (name : string) (pd : PowerSupplyPaths * Z) : PowerSupplyPaths * Z :=
  let '(p, divisor) := pd in
  let path := supply_file name "voltage_now" in
  if access fs path then (set_batteryVoltagePath path p, 1000)
  else
    let path := supply_file name "batt_vol" in
    if access fs path then (set_batteryVoltagePath path p, divisor) else (p, divisor).

(** Lines 410-419. *)
Definition scan_temperature (name : string) (p : PowerSupplyPaths) : PowerSupplyPaths :=
  let path := supply_file name "temp" in
  if access fs path then set_batteryTemperaturePath path p
  else
    let path := supply_file name "batt_temp" in
    if access fs path then set_batteryTemperaturePath path p else p.

(** A single-name attribute: recorded when readable. *)
Definition scan_one (leaf : string) (set : string -> PowerSupplyPaths -> PowerSupplyPaths)
    (name : string) (p : PowerSupplyPaths) : PowerSupplyPaths :=
  let path := supply_file name leaf in
  if access fs path then set path p else p.

(** case ANDROID_POWER_SUPPLY_TYPE_BATTERY, lines 357-425. *)
Definition scan_battery (name : string) (g : globals) : globals :=
  let p := gPaths g in
  let p := scan_one "status" set_batteryStatusPath name p in
  let p := scan_one "health" set_batteryHealthPath name p in
  let p := scan_one "present" set_batteryPresentPath name p in
  let p := scan_capacity name p in
  let '(p, divisor) := scan_voltage name (p, gVoltageDivisor g) in
  let p := scan_temperature name p in
  let p := scan_one "technology" set_batteryTechnologyPath name p in
  {| gConstants := gConstants g;
     gPaths := p;
     gChargerNames := gChargerNames g;
     gVoltageDivisor := divisor |}.

(** case AC / USB / WIRELESS, lines 348-355: Vector::add appends. *)
Definition scan_charger (name : string) (g : globals) : globals :=
  if access fs (supply_file name "online")
  then {| gConstants := gConstants g;
          gPaths := gPaths g;
          gChargerNames := gChargerNames g ++ [name];
          gVoltageDivisor := gVoltageDivisor g |}
  else g.

(** The body of the readdir loop. *)
Definition scan_entry (g : globals) (name : string) : globals :=
  if is_dot_entry name then g
  else match readPowerSupplyType fs (supply_file name "type") with
       | ANDROID_POWER_SUPPLY_TYPE_AC
       | ANDROID_POWER_SUPPLY_TYPE_USB
       | ANDROID_POWER_SUPPLY_TYPE_WIRELESS => scan_charger name g
       | ANDROID_POWER_SUPPLY_TYPE_BATTERY => scan_battery name g
       | ANDROID_POWER_SUPPLY_TYPE_UNKNOWN => g
       end.

(** The discovery half of register_android_server_BatteryService (lines
    328-432).  The JNI lookups that follow fill gFieldIds and gConstants and
    are left to the host. *)
Definition register_android_server_BatteryService (g : globals) : globals :=
  match fs_dir fs with
  | None => g
  | Some entries => fold_left scan_entry entries g
  end.

End Discovery.

(** A step of the battery block that leaves a member of gPaths alone. *)
Definition keeps (proj : PowerSupplyPaths -> string)
    (step : PowerSupplyPaths -> PowerSupplyPaths) : Prop :=
  forall p, proj (step p) = proj p.

(** The statics before registration: empty paths, no chargers,
    [gVoltageDivisor = 1]. *)
Definition no_paths : PowerSupplyPaths :=
  {| batteryStatusPath := EmptyString;
     batteryHealthPath := EmptyString;
     batteryPresentPath := EmptyString;
     batteryCapacityPath := EmptyString;
     batteryChargeNowPath := EmptyString;
     batteryChargeFullPath := EmptyString;
     batteryVoltagePath := EmptyString;
     batteryTemperaturePath := EmptyString;
     batteryTechnologyPath := EmptyString |}.

Definition initial_globals (k : BatteryManagerConstants) : globals :=
  {| gConstants := k;
     gPaths := no_paths;
     gChargerNames := [];
     gVoltageDivisor := 1 |}.

(** ** The classifiers as the specification words them *)
Module Spec.
Import CStr.

Inductive Status := Charging | Discharging | Full | NotCharging | UnknownStatus.

Inductive Health :=
| Cold | Dead | Good | Overheat | OverVoltage | UnspecifiedFailure | UnknownHealth.

Definition status_code (k : BatteryManagerConstants) (s : Status) : Z :=
  match s with
  | Charging => statusCharging k
  | Discharging => statusDischarging k
  | Full => statusFull k
  | NotCharging => statusNotCharging k
  | UnknownStatus => statusUnknown k
  end.

Definition health_code (k : BatteryManagerConstants) (h : Health) : Z :=
  match h with
  | Cold => healthCold k
  | Dead => healthDead k
  | Good => healthGood k
  | Overheat => healthOverheat k
  | OverVoltage => healthOverVoltage k
  | UnspecifiedFailure => healthUnspecifiedFailure k
  | UnknownHealth => healthUnknown k
  end.

(** First match in an association table, or the default. *)
Fixpoint lookup_or {K A} (eqb : K -> K -> bool) (tbl : list (K * A)) (x : K) (d : A) : A :=
  match tbl with
  | [] => d
  | (y, a) :: rest => if eqb x y then a else lookup_or eqb rest x d
  end.

Definition status_table : list (ascii * Status) :=
  [("C"%char, Charging); ("D"%char, Discharging); ("F"%char, Full);
   ("N"%char, NotCharging); ("U"%char, UnknownStatus)].

(** The first character alone selects the status. *)
Definition status_of_string (s : string) : Status :=
  match s with
  | EmptyString => UnknownStatus
  | String c _ => lookup_or Ascii.eqb status_table c UnknownStatus
  end.

(** C, D, G decide at once; O and U ask for the whole string. *)
Definition health_of_string (s : string) : Health :=
  match s with
  | EmptyString => UnknownHealth
  | String c _ =>
      if Ascii.eqb c "C" then Cold
      else if Ascii.eqb c "D" then Dead
      else if Ascii.eqb c "G" then Good
      else if Ascii.eqb c "O" then
        lookup_or String.eqb [("Overheat", Overheat); ("Over voltage", OverVoltage)]
                  s UnknownHealth
      else if Ascii.eqb c "U" then
        lookup_or String.eqb
                  [("Unspecified failure", UnspecifiedFailure); ("Unknown", UnknownHealth)]
                  s UnknownHealth
      else UnknownHealth
  end.

Definition supply_type_table : list (string * PowerSupplyType) :=
  [("Battery", ANDROID_POWER_SUPPLY_TYPE_BATTERY);
   ("Mains", ANDROID_POWER_SUPPLY_TYPE_AC);
   ("USB_DCP", ANDROID_POWER_SUPPLY_TYPE_AC);
   ("USB_CDP", ANDROID_POWER_SUPPLY_TYPE_AC);
   ("USB_ACA", ANDROID_POWER_SUPPLY_TYPE_AC);
   ("USB", ANDROID_POWER_SUPPLY_TYPE_USB);
   ("Wireless", ANDROID_POWER_SUPPLY_TYPE_WIRELESS)].

(** Exact match of the whole string, anything else is Unknown. *)
Definition supply_type_of_string (s : string) : PowerSupplyType :=
  lookup_or String.eqb supply_type_table s ANDROID_POWER_SUPPLY_TYPE_UNKNOWN.

(** A string without its trailing newlines. *)
Fixpoint rtrim (s : string) : string :=
  match s with
  | EmptyString => EmptyString
  | String c rest =>
      match rtrim rest with
      | EmptyString => if Ascii.eqb c LF then EmptyString else String c EmptyString
      | t => String c t
      end
  end.

(** The text a content read of [size] bytes leaves for the classifiers. *)
Definition trimmed (size : nat) (bytes : string) : string :=
  c_str (rtrim (String.substring 0 size bytes)).

(** What open and read give for [path]: the bytes, or nothing when the path
    is unset, cannot be opened or cannot be read. *)
Definition content (fs : filesystem) (path : string) : option string :=
  if isEmpty path then None
  else match fs_files fs !! path with
       | Some (Data bytes) => Some bytes
       | _ => None
       end.

End Spec.

(** ** Observing a poll *)

(** Whether a content read of [size] bytes of [path] yields data, and the
    buffer it leaves. *)
Definition read_ok (fs : filesystem) (path : string) (size : nat) : bool :=
  Z.ltb 0 (fst (readFromFile fs path size)).

Definition read_buf (fs : filesystem) (path : string) (size : nat) : string :=
  snd (readFromFile fs path size).

(** A charger whose online file reads as true. *)
Definition reports_online (fs : filesystem) (name : string) : bool :=
  (read_ok fs (supply_file name "online") 128
   && negb (Ascii.eqb (CStr.char_at (read_buf fs (supply_file name "online") 128) 0) "0"))%bool.

Definition type_eqb (a b : PowerSupplyType) : bool :=
  match a, b with
  | ANDROID_POWER_SUPPLY_TYPE_UNKNOWN, ANDROID_POWER_SUPPLY_TYPE_UNKNOWN
  | ANDROID_POWER_SUPPLY_TYPE_AC, ANDROID_POWER_SUPPLY_TYPE_AC
  | ANDROID_POWER_SUPPLY_TYPE_USB, ANDROID_POWER_SUPPLY_TYPE_USB
  | ANDROID_POWER_SUPPLY_TYPE_WIRELESS, ANDROID_POWER_SUPPLY_TYPE_WIRELESS
  | ANDROID_POWER_SUPPLY_TYPE_BATTERY, ANDROID_POWER_SUPPLY_TYPE_BATTERY => true
  | _, _ => false
  end.

(** A charger that reports online and whose type file classifies as [t]. *)
Definition supplies (fs : filesystem) (t : PowerSupplyType) (name : string) : bool :=
  (reports_online fs name
   && type_eqb (readPowerSupplyType fs (supply_file name "type")) t)%bool.

Module Trace.

(** The paths handed to open(2), in order. *)
Definition opened (evs : list event) : list string :=
  flat_map (fun e => match e with EvOpen path => [path] | _ => [] end) evs.

Definition int_eqb (a b : gFieldIds.int) : bool :=
  match a, b with
  | gFieldIds.mBatteryStatus, gFieldIds.mBatteryStatus
  | gFieldIds.mBatteryHealth, gFieldIds.mBatteryHealth
  | gFieldIds.mBatteryLevel, gFieldIds.mBatteryLevel
  | gFieldIds.mBatteryVoltage, gFieldIds.mBatteryVoltage
  | gFieldIds.mBatteryTemperature, gFieldIds.mBatteryTemperature => true
  | _, _ => false
  end.

(** Whether SetIntField was called on [f]. *)
Definition sets_int (f : gFieldIds.int) (evs : list event) : bool :=
  existsb (fun e => match e with EvSetInt f' _ => int_eqb f f' | _ => false end) evs.

(** Whether SetObjectField was called on mBatteryTechnology. *)
Definition sets_technology (evs : list event) : bool :=
  existsb (fun e => match e with EvSetTechnology _ => true | _ => false end) evs.

(** An event that is the open of one of the two files of a charger in [names]. *)
Definition charger_open (names : list string) (e : event) : Prop :=
  exists name, In name names /\
    (e = EvOpen (supply_file name "online") \/ e = EvOpen (supply_file name "type")).

(** The events of the presence and level block. *)
Definition level_event (e : event) : Prop :=
  (exists path, e = EvOpen path)
  \/ (exists v, e = EvSetBoolean gFieldIds.mBatteryPresent v)
  \/ (exists v, e = EvSetInt gFieldIds.mBatteryLevel v).

End Trace.

(** ** Sample inputs *)

Module Examples.
Import CStr.

(** The values of android.os.BatteryManager's BATTERY_STATUS_* and
    BATTERY_HEALTH_* constants. *)
Definition android : BatteryManagerConstants :=
  {| statusUnknown := 1;
     statusCharging := 2;
     statusDischarging := 3;
     statusNotCharging := 4;
     statusFull := 5;
     healthUnknown := 1;
     healthGood := 2;
     healthOverheat := 3;
     healthDead := 4;
     healthOverVoltage := 5;
     healthUnspecifiedFailure := 6;
     healthCold := 7 |}.

(** A BatteryService object before its first poll. *)
Definition fresh : world :=
  {| obj := {| acOnline := false;
               usbOnline := false;
               wirelessOnline := false;
               batteryPresent := false;
               batteryStatus := 0;
               batteryHealth := 0;
               batteryLevel := 0;
               batteryVoltage := 0;
               batteryTemperature := 0;
               batteryTechnology := None |};
     trace := [] |}.

(** The same object after an earlier poll recorded 42 percent. *)
Definition at_42 : world :=
  {| obj := put_int gFieldIds.mBatteryLevel 42 (obj fresh); trace := [] |}.

(** The same object after an earlier poll found the mains adapter online. *)
Definition on_mains : world :=
  {| obj := put_boolean gFieldIds.mAcOnline true (obj fresh); trace := [] |}.

Definition line (s : string) : file := Data (s +:+ nl).

(** A machine without /sys/class/power_supply. *)
Definition desktop : filesystem :=
  {| fs_files := ∅; fs_dir := None |}.

(** A battery that reports charge_now and charge_full. *)
Definition phone (now full : string) : filesystem :=
  {| fs_files :=
       {[ supply_file "battery" "type" := line "Battery";
          supply_file "battery" "present" := line "1";
          supply_file "battery" "status" := line "Charging";
          supply_file "battery" "charge_now" := line now;
          supply_file "battery" "charge_full" := line full;
          supply_file "battery" "batt_vol" := line "3700";
          supply_file "usb" "type" := line "USB";
          supply_file "usb" "online" := line "0" ]};
     fs_dir := Some ["."; ".."; "battery"; "usb"] |}.

(** The same tree a moment later, charge_full gone. *)
Definition phone_full_gone (now : string) : filesystem :=
  {| fs_files := delete (supply_file "battery" "charge_full") (fs_files (phone now "200"));
     fs_dir := fs_dir (phone now "200") |}.

(** A laptop: mains adapter online, a 60 Wh battery at 50 Wh, energy in
    microwatt-hours, voltage in microvolts. *)
Definition laptop : filesystem :=
  {| fs_files :=
       {[ supply_file "AC" "type" := line "Mains";
          supply_file "AC" "online" := line "1";
          supply_file "BAT0" "type" := line "Battery";
          supply_file "BAT0" "present" := line "1";
          supply_file "BAT0" "status" := line "Charging";
          supply_file "BAT0" "energy_now" := line "50000000";
          supply_file "BAT0" "energy_full" := line "60000000";
          supply_file "BAT0" "voltage_now" := line "3700000" ]};
     fs_dir := Some ["."; ".."; "AC"; "BAT0"] |}.

(** A battery with charge_now but no charge_full, and a complete energy pair. *)
Definition half_pair : filesystem :=
  {| fs_files :=
       {[ supply_file "BAT0" "type" := line "Battery";
          supply_file "BAT0" "charge_now" := line "2500000";
          supply_file "BAT0" "energy_now" := line "9000000";
          supply_file "BAT0" "energy_full" := line "18000000" ]};
     fs_dir := Some ["."; ".."; "BAT0"] |}.

(** Two batteries: the first reports voltage_now in microvolts, the second
    only batt_vol in millivolts. *)
Definition two_batteries : filesystem :=
  {| fs_files :=
       {[ supply_file "BAT0" "type" := line "Battery";
          supply_file "BAT0" "voltage_now" := line "3700000";
          supply_file "BAT1" "type" := line "Battery";
          supply_file "BAT1" "batt_vol" := line "3700" ]};
     fs_dir := Some ["."; ".."; "BAT0"; "BAT1"] |}.

(** A status file holding "Charging" and a newline. *)
Definition charging_status : filesystem :=
  {| fs_files := {[ supply_file "battery" "status" := line "Charging" ]};
     fs_dir := Some ["battery"] |}.

(** Registration followed by one poll. *)
Definition registered (fs : filesystem) : globals :=
  register_android_server_BatteryService fs (initial_globals android).

Abbreviation poll fs := (android_server_BatteryService_update (registered fs) fs).

(** The world a run leaves; a crashed run leaves it as it was. *)
Definition after (r : outcome unit) (w : world) : world :=
  match r with
  | Done _ w' => w'
  | Crash _ => w
  end.

End Examples.

(** ** Observing discovery *)

Module Observe.

(** The nine members of gPaths. *)
Definition all_paths (p : PowerSupplyPaths) : list string :=
  [batteryStatusPath p; batteryHealthPath p; batteryPresentPath p;
   batteryCapacityPath p; batteryChargeNowPath p; batteryChargeFullPath p;
   batteryVoltagePath p; batteryTemperaturePath p; batteryTechnologyPath p].

(** What readdir listed; nothing when the directory cannot be opened. *)
Definition entries (fs : filesystem) : list string :=
  match fs_dir fs with
  | Some names => names
  | None => []
  end.

Definition is_charger_type (t : PowerSupplyType) : bool :=
  match t with
  | ANDROID_POWER_SUPPLY_TYPE_AC
  | ANDROID_POWER_SUPPLY_TYPE_USB
  | ANDROID_POWER_SUPPLY_TYPE_WIRELESS => true
  | _ => false
  end.

(** A listed entry, other than "." and "..", whose type file classifies as
    AC, USB or Wireless and whose online file is readable. *)
Definition charger_entry (fs : filesystem) (name : string) : bool :=
  negb (is_dot_entry name)
  && is_charger_type (readPowerSupplyType fs (supply_file name "type"))
  && access fs (supply_file name "online").

(** A listed entry, other than "." and "..", whose type file classifies as
    Battery. *)
Definition battery_entry (fs : filesystem) (name : string) : bool :=
  negb (is_dot_entry name)
  && type_eqb (readPowerSupplyType fs (supply_file name "type"))
       ANDROID_POWER_SUPPLY_TYPE_BATTERY.

(** Each member of gPaths is unset or names a readable file. *)
Definition paths_readable (fs : filesystem) (p : PowerSupplyPaths) : Prop :=
  Forall (fun path => path = EmptyString \/ access fs path = true) (all_paths p).

End Observe.

(** ** A second sample tree *)

Module MoreExamples.
Import CStr Examples.

(** A tablet: a battery with capacity, temperature, health and technology
    files, a mains adapter that is offline, and USB and wireless chargers
    that are online. *)
Definition tablet : filesystem :=
  {| fs_files :=
       {[ supply_file "battery" "type" := line "Battery";
          supply_file "battery" "present" := line "1";
          supply_file "battery" "status" := line "Discharging";
          supply_file "battery" "health" := line "Good";
          supply_file "battery" "capacity" := line "87";
          supply_file "battery" "voltage_now" := line "4012000";
          supply_file "battery" "temp" := line "305";
          supply_file "battery" "technology" := line "Li-ion" ]}
       ∪
       {[ supply_file "ac" "type" := line "Mains";
          supply_file "ac" "online" := line "0";
          supply_file "usb" "type" := line "USB";
          supply_file "usb" "online" := line "1";
          supply_file "dock" "type" := line "Wireless";
          supply_file "dock" "online" := line "1";
          supply_file "hub" "type" := line "Hub" ]};
     fs_dir := Some ["."; ".."; "ac"; "battery"; "dock"; "hub"; "usb"] |}.

End MoreExamples.

(** * Properties *)

Module CStrFacts.
Import CStr.

Lemma code_inj a b : code a = code b -> a = b.
Proof.
  unfold code. intros H. apply Nat2Z.inj in H.
  rewrite <- (ascii_nat_embedding a), <- (ascii_nat_embedding b). now rewrite H.
Qed.

Lemma code_NUL c : code c = 0 -> c = NUL.
Proof. intros H. apply code_inj. exact H. Qed.

Lemma char_at_0 c s : char_at (String c s) 0 = c.
Proof. reflexivity. Qed.

Lemma char_at_S c s i : char_at (String c s) (S i) = char_at s i.
Proof. reflexivity. Qed.

(** strcmp against a NUL-free literal is zero exactly when the C string in
    the buffer is that literal. *)
Lemma strcmp_zero_iff a lit :
  nul_free lit = true -> strcmp a lit = 0 <-> c_str a = lit.
Proof.
  revert lit. induction a as [|ca a IH]; intros lit Hlit; simpl.
  - destruct lit as [|c l]; simpl.
    + split; reflexivity.
    + simpl in Hlit. apply andb_prop in Hlit as [Hc _].
      split; [intros H | discriminate]. rewrite char_at_0 in H.
      assert (c = NUL) by (apply code_NUL; lia). subst c. discriminate.
  - destruct (Ascii.eqb_spec ca (char_at lit 0)) as [Heq|Hne].
    + destruct (Ascii.eqb_spec ca NUL) as [Hz|Hnz].
      * destruct lit as [|c l]; [split; reflexivity|].
        rewrite char_at_0 in Heq. simpl in Hlit. subst. discriminate.
      * destruct lit as [|c l]; [contradiction|].
        rewrite char_at_0 in Heq. subst c. simpl in Hlit. apply andb_prop in Hlit as [_ Hl].
        simpl. rewrite (IH l Hl). split; [intros ->; reflexivity | now intros [= ->]].
    + split.
      * intros H. exfalso. apply Hne. apply code_inj. lia.
      * intros H. exfalso. apply Hne.
        destruct (Ascii.eqb_spec ca NUL) as [Hz|Hnz]; subst; reflexivity.
  Qed.

Lemma strcmp_eqb a lit :
  nul_free lit = true -> Z.eqb (strcmp a lit) 0 = String.eqb (c_str a) lit.
Proof.
  intros Hlit. pose proof (strcmp_zero_iff a lit Hlit) as H.
  destruct (Z.eqb_spec (strcmp a lit) 0) as [E|E], (String.eqb_spec (c_str a) lit) as [F|F];
    try reflexivity; tauto.
Qed.

Lemma c_str_nul_free s : nul_free s = true -> c_str s = s.
Proof.
  induction s as [|c s IH]; simpl; [reflexivity|].
  intros H. apply andb_prop in H as [Hc Hs].
  destruct (Ascii.eqb c NUL); [discriminate|]. now rewrite IH.
Qed.

Lemma char_at_c_str s : char_at (c_str s) 0 = char_at s 0.
Proof.
  destruct s as [|c s]; simpl; [reflexivity|].
  destruct (Ascii.eqb_spec c NUL) as [->|]; reflexivity.
Qed.

End CStrFacts.

Section ClassifierFacts.
Import CStr CStrFacts Spec.
Variable k : BatteryManagerConstants.

Lemma getBatteryStatus_c_str status :
  getBatteryStatus k status = status_code k (status_of_string (c_str status)).
Proof.
  unfold getBatteryStatus. rewrite <- char_at_c_str.
  destruct (c_str status) as [|c r]; [reflexivity|].
  rewrite char_at_0. simpl.
  repeat (destruct (Ascii.eqb c _); [reflexivity|]). reflexivity.
Qed.

(** C7. getBatteryHealth dispatches on the first character of the C string
    it is given: C, D and G give Cold, Dead and Good whatever follows; O gives
    Overheat or OverVoltage only when the whole string is "Overheat" or
    "Over voltage", and Unknown otherwise; U gives UnspecifiedFailure only
    for "Unspecified failure" and Unknown otherwise ("Unknown" included);
    any other first character, or the empty string, gives Unknown. *)
Theorem getBatteryHealth_classifies status :
  getBatteryHealth k status = health_code k (health_of_string (c_str status)).
Proof.
  unfold getBatteryHealth. rewrite !strcmp_eqb by reflexivity.
  rewrite <- char_at_c_str.
  destruct (c_str status) as [|c r] eqn:E; [reflexivity|].
  rewrite char_at_0. unfold health_of_string.
  repeat (destruct (Ascii.eqb c _); [try reflexivity|]).
  - unfold lookup_or. repeat (destruct (String.eqb _ _); [reflexivity|]). reflexivity.
  - unfold lookup_or. repeat (destruct (String.eqb _ _); [reflexivity|]). reflexivity.
  - reflexivity.
Qed.
End ClassifierFacts.

Module ReadFacts.
Import CStr CStrFacts Spec.

Lemma substring_0_0 s : String.substring 0 0 s = EmptyString.
Proof. destruct s; reflexivity. Qed.

Lemma substring_0_S s : forall n, (n < String.length s)%nat ->
  String.substring 0 (S n) s = String.substring 0 n s +:+ String (char_at s n) EmptyString.
Proof.
  induction s as [|c s IH]; intros n Hn; simpl in Hn; [lia|].
  destruct n as [|n]; simpl.
  - now rewrite substring_0_0.
  - rewrite char_at_S. rewrite IH by lia. reflexivity.
Qed.

Lemma char_at_substring s : forall n i, (i < n)%nat ->
  char_at (String.substring 0 n s) i = char_at s i.
Proof.
  induction s as [|c s IH]; intros n i Hi.
  - destruct n; reflexivity.
  - destruct n as [|n]; [lia|]. simpl. destruct i as [|i]; [reflexivity|].
    rewrite !char_at_S. apply IH. lia.
Qed.

Lemma substring_all s : String.substring 0 (String.length s) s = s.
Proof. induction s as [|c s IH]; simpl; [reflexivity | now rewrite IH]. Qed.

Lemma rtrim_snoc_LF s : rtrim (s +:+ String LF EmptyString) = rtrim s.
Proof.
  induction s as [|c s IH]; simpl; [reflexivity|]. now rewrite IH.
Qed.

Lemma rtrim_snoc s c : c <> LF ->
  rtrim (s +:+ String c EmptyString) = s +:+ String c EmptyString.
Proof.
  intros Hc. induction s as [|d s IH]; simpl.
  - destruct (Ascii.eqb_spec c LF); [contradiction | reflexivity].
  - rewrite IH. destruct s; reflexivity.
Qed.

Lemma trim_count_le buf n : (trim_count buf n <= n)%nat.
Proof.
  induction n as [|n IH]; simpl; [lia|].
  destruct (Ascii.eqb _ _); lia.
Qed.

(** The newline-stripping loop computes the right trim of what was read. *)
Lemma trim_count_rtrim buf n : (n <= String.length buf)%nat ->
  String.substring 0 (trim_count buf n) buf = rtrim (String.substring 0 n buf).
Proof.
  induction n as [|n IH]; intros Hn.
  - simpl. now rewrite substring_0_0.
  - rewrite (substring_0_S buf n) by lia. simpl.
    destruct (Ascii.eqb_spec (char_at buf n) LF) as [E|E].
    + rewrite E, rtrim_snoc_LF. apply IH. lia.
    + rewrite rtrim_snoc by exact E. now rewrite <- substring_0_S by lia.
Qed.

(** After the loop the last kept byte is not a newline. *)
Lemma trim_count_last buf n m : trim_count buf n = S m -> char_at buf m <> LF.
Proof.
  induction n as [|n IH]; simpl; [discriminate|].
  destruct (Ascii.eqb_spec (char_at buf n) LF) as [E|E]; [exact IH|].
  now intros [= <-].
Qed.

Lemma trim_count_zero buf n : (n <= String.length buf)%nat ->
  trim_count buf n = O -> rtrim (String.substring 0 n buf) = EmptyString.
Proof.
  intros Hn H. rewrite <- trim_count_rtrim by exact Hn. rewrite H. apply substring_0_0.
Qed.

Lemma length_substring s : forall n, (n <= String.length s)%nat ->
  String.length (String.substring 0 n s) = n.
Proof.
  induction s as [|c s IH]; intros n Hn; simpl in Hn.
  - assert (n = O) by lia. subst. reflexivity.
  - destruct n as [|n]; [reflexivity|]. simpl. rewrite IH; lia.
Qed.

(** readFromFile in terms of the content and its right trim. *)
Lemma readFromFile_content fs path size :
  readFromFile fs path size =
  match content fs path with
  | Some bytes =>
      let t := rtrim (String.substring 0 size bytes) in
      (Z.of_nat (String.length t), t)
  | None => (-1, EmptyString)
  end.
Proof.
  unfold readFromFile, content.
  destruct (isEmpty path); [reflexivity|].
  destruct (fs_files fs !! path) as [[|bytes]|]; try reflexivity.
  set (buf := String.substring 0 size bytes).
  destruct (Nat.ltb_spec 0 (String.length buf)) as [Hpos|Hz].
  - cbv zeta.
    assert (E : rtrim buf = String.substring 0 (trim_count buf (String.length buf)) buf)
      by (rewrite trim_count_rtrim by lia; now rewrite substring_all).
    rewrite E, length_substring; [reflexivity|]. apply trim_count_le.
  - destruct buf; [reflexivity | simpl in Hz; lia].
Qed.

(** A successful read never leaves a newline as the last byte. *)
Lemma readFromFile_last fs path size n buf :
  readFromFile fs path size = (n, buf) -> 0 < n ->
  char_at buf (Z.to_nat (n - 1)) <> LF.
Proof.
  unfold readFromFile.
  destruct (isEmpty path); [intros [= <- <-]; lia|].
  destruct (fs_files fs !! path) as [[|bytes]|]; try (intros [= <- <-]; lia).
  set (b := String.substring 0 size bytes).
  destruct (Nat.ltb 0 (String.length b)); [|intros [= <- <-]; lia].
  cbv zeta. intros [= <- <-] Hn.
  destruct (trim_count b (String.length b)) as [|m] eqn:E; [simpl in Hn; lia|].
  replace (Z.to_nat (Z.of_nat (S m) - 1)) with m by lia.
  rewrite char_at_substring by lia. eapply trim_count_last; eauto.
Qed.

End ReadFacts.

Section SupplyType.
Import CStr CStrFacts Spec ReadFacts.

(** C8. readPowerSupplyType compares the whole trimmed content of the file
    with the seven known names: "Battery" is Battery; "Mains", "USB_DCP",
    "USB_CDP" and "USB_ACA" are AC; "USB" is USB; "Wireless" is Wireless;
    every other content, the empty one included, and every file that cannot
    be opened or read, is Unknown.  The trimmed content is what the read
    leaves as a C string: at most 128 bytes, trailing newlines removed. *)
Theorem readPowerSupplyType_exact fs path :
  readPowerSupplyType fs path =
  match content fs path with
  | Some bytes => supply_type_of_string (trimmed 128 bytes)
  | None => ANDROID_POWER_SUPPLY_TYPE_UNKNOWN
  end.
Proof.
  unfold readPowerSupplyType.
  destruct (readFromFile fs path 128) as [n buf] eqn:R.
  pose proof (readFromFile_last fs path 128 n buf R) as Hlast.
  rewrite readFromFile_content in R. unfold trimmed.
  destruct (content fs path) as [bytes|].
  - cbv zeta in R. injection R as <- <-.
    set (t := rtrim (String.substring 0 128 bytes)) in *.
    destruct (Z.leb_spec (Z.of_nat (String.length t)) 0) as [Hz|Hpos].
    + destruct t; [reflexivity | simpl in Hz; lia].
    + destruct (Ascii.eqb_spec (char_at t (Z.to_nat (Z.of_nat (String.length t) - 1))) LF)
        as [E|_]; [exfalso; apply Hlast; [lia | exact E]|].
      rewrite !strcmp_eqb by reflexivity.
      unfold supply_type_of_string, supply_type_table, lookup_or.
      repeat (destruct (String.eqb (c_str t) _); [reflexivity|]). reflexivity.
  - injection R as <- <-. reflexivity.
Qed.

End SupplyType.

(** ** Running the poll *)

Module PollFacts.
Import CStr Libc Spec Trace.

Ltac run :=
  cbv [SetIntField SetBooleanField SetTechnology readFromFileM readPowerSupplyTypeM
       record_opens emit modify bind ret raise];
  cbn [obj trace fst snd].

Lemma supply_file_not_empty name leaf : isEmpty (supply_file name leaf) = false.
Proof. reflexivity. Qed.

Lemma opens_supply_file name leaf :
  opens (supply_file name leaf) = [EvOpen (supply_file name leaf)].
Proof. reflexivity. Qed.

Lemma read_ok_unset fs size : read_ok fs EmptyString size = false.
Proof. reflexivity. Qed.

Lemma charger_open_mono names more e :
  charger_open names e -> charger_open (more ++ names) e.
Proof.
  intros (name & Hin & He). exists name. split; [|exact He].
  apply in_or_app. now right.
Qed.

Lemma poll_charger_run fs name o w :
  exists evs,
    poll_charger fs name o w =
      Done {| ac := ac o || supplies fs ANDROID_POWER_SUPPLY_TYPE_AC name;
              usb := usb o || supplies fs ANDROID_POWER_SUPPLY_TYPE_USB name;
              wireless := wireless o || supplies fs ANDROID_POWER_SUPPLY_TYPE_WIRELESS name |}
           {| obj := obj w; trace := trace w ++ evs |}
    /\ Forall (charger_open [name]) evs.
Proof.
  unfold poll_charger, supplies, reports_online, read_ok, read_buf. run.
  rewrite !opens_supply_file.
  destruct (readFromFile fs (supply_file name "online") 128) as [n buf]. cbn [fst snd].
  assert (Hon : charger_open [name] (EvOpen (supply_file name "online")))
    by (exists name; split; [now left | now left]).
  assert (Hty : charger_open [name] (EvOpen (supply_file name "type")))
    by (exists name; split; [now left | now right]).
  destruct (Z.ltb 0 n); cbn [andb].
  - destruct (negb (Ascii.eqb (char_at buf 0) "0")); cbn [andb].
    + exists [EvOpen (supply_file name "online"); EvOpen (supply_file name "type")].
      split; [|repeat constructor; assumption].
      destruct (readPowerSupplyType fs (supply_file name "type")); cbn [type_eqb obj trace];
        rewrite <- List.app_assoc; cbn [app];
        rewrite ?orb_false_r, ?orb_true_r; destruct o; reflexivity.
    + exists [EvOpen (supply_file name "online")].
      split; [|repeat constructor; assumption].
      rewrite !orb_false_r. destruct o; reflexivity.
  - exists [EvOpen (supply_file name "online")].
    split; [|repeat constructor; assumption].
    rewrite !orb_false_r. destruct o; reflexivity.
Qed.

(** The loop visits every charger: the counter ends at the vector size and
    each flag is the disjunction over the chargers. *)
Lemma poll_chargers_run fs names : forall i o w,
  exists evs,
    poll_chargers fs names i o w =
      Done ((i + List.length names)%nat,
            {| ac := ac o || existsb (supplies fs ANDROID_POWER_SUPPLY_TYPE_AC) names;
               usb := usb o || existsb (supplies fs ANDROID_POWER_SUPPLY_TYPE_USB) names;
               wireless :=
                 wireless o || existsb (supplies fs ANDROID_POWER_SUPPLY_TYPE_WIRELESS) names |})
           {| obj := obj w; trace := trace w ++ evs |}
    /\ Forall (charger_open names) evs.
Proof.
  induction names as [|name rest IH]; intros i o w.
  - exists []. split; [|constructor]. cbn. rewrite !orb_false_r, app_nil_r, Nat.add_0_r.
    destruct o, w; reflexivity.
  - destruct (poll_charger_run fs name o w) as (evs1 & R1 & F1).
    cbn [poll_chargers]. unfold bind at 1. rewrite R1.
    edestruct IH as (evs2 & R2 & F2). rewrite R2. clear R1 R2.
    exists (evs1 ++ evs2)%list. split.
    + cbn [obj trace ac usb wireless existsb List.length].
      rewrite !orb_assoc, app_assoc. do 2 f_equal. lia.
    + apply List.Forall_app. split.
      * eapply List.Forall_impl; [|exact F1]. intros e He.
        destruct He as (nm & Hin & Hx). exists nm. split; [|exact Hx].
        destruct Hin as [<-|[]]. now left.
      * eapply List.Forall_impl; [|exact F2]. intros e He.
        apply (charger_open_mono rest [name]). exact He.
Qed.

Lemma update_chargers_run g fs w :
  exists evs,
    update_chargers g fs w =
      Done tt
        {| obj :=
             put_boolean gFieldIds.mWirelessOnline
               (existsb (supplies fs ANDROID_POWER_SUPPLY_TYPE_WIRELESS) (gChargerNames g))
               (put_boolean gFieldIds.mUsbOnline
                  (existsb (supplies fs ANDROID_POWER_SUPPLY_TYPE_USB) (gChargerNames g))
                  (put_boolean gFieldIds.mAcOnline
                     (match gChargerNames g with
                      | [] => true
                      | _ => existsb (supplies fs ANDROID_POWER_SUPPLY_TYPE_AC) (gChargerNames g)
                      end)
                     (obj w)));
           trace := trace w ++ evs |}
    /\ Forall (fun e => charger_open (gChargerNames g) e \/ exists f v, e = EvSetBoolean f v) evs.
Proof.
  unfold update_chargers.
  destruct (poll_chargers_run fs (gChargerNames g) 0
              {| ac := false; usb := false; wireless := false |} w) as (evs & R & F).
  unfold bind at 1. rewrite R. clear R. cbn [ac usb wireless orb Nat.add]. run.
  set (a := match gChargerNames g with
            | [] => true
            | _ => existsb (supplies fs ANDROID_POWER_SUPPLY_TYPE_AC) (gChargerNames g)
            end).
  replace (if Nat.eqb (List.length (gChargerNames g)) 0 then true
           else existsb (supplies fs ANDROID_POWER_SUPPLY_TYPE_AC) (gChargerNames g))
    with a by (unfold a; destruct (gChargerNames g); reflexivity).
  exists (evs ++ [EvSetBoolean gFieldIds.mAcOnline a;
                  EvSetBoolean gFieldIds.mUsbOnline
                    (existsb (supplies fs ANDROID_POWER_SUPPLY_TYPE_USB) (gChargerNames g));
                  EvSetBoolean gFieldIds.mWirelessOnline
                    (existsb (supplies fs ANDROID_POWER_SUPPLY_TYPE_WIRELESS)
                       (gChargerNames g))])%list.
  split.
  - rewrite <- !List.app_assoc. reflexivity.
  - apply List.Forall_app. split.
    + eapply List.Forall_impl; [|exact F]. intros e He. now left.
    + repeat (constructor; [right; eauto|]). constructor.
Qed.

Lemma update_attributes_run g fs w :
  let p := gPaths g in
  let k := gConstants g in
  let ok path := read_ok fs path 128 in
  let buf path := read_buf fs path 128 in
  update_attributes g fs w =
  match (if ok (batteryVoltagePath p)
         then Int32.div (atoi (buf (batteryVoltagePath p))) (gVoltageDivisor g)
         else Some 0) with
  | None => Crash SIGFPE
  | Some v =>
      let t := if ok (batteryTemperaturePath p) then atoi (buf (batteryTemperaturePath p)) else 0 in
      let s := if ok (batteryStatusPath p)
               then getBatteryStatus k (buf (batteryStatusPath p)) else statusUnknown k in
      Done tt
        {| obj :=
             {| acOnline := acOnline (obj w);
                usbOnline := usbOnline (obj w);
                wirelessOnline := wirelessOnline (obj w);
                batteryPresent := batteryPresent (obj w);
                batteryStatus := s;
                batteryHealth :=
                  if ok (batteryHealthPath p)
                  then getBatteryHealth k (buf (batteryHealthPath p))
                  else batteryHealth (obj w);
                batteryLevel := batteryLevel (obj w);
                batteryVoltage := v;
                batteryTemperature := t;
                batteryTechnology :=
                  if ok (batteryTechnologyPath p)
                  then Some (c_str (buf (batteryTechnologyPath p)))
                  else batteryTechnology (obj w) |};
           trace :=
             trace w ++
             (opens (batteryVoltagePath p) ++ [EvSetInt gFieldIds.mBatteryVoltage v] ++
              opens (batteryTemperaturePath p) ++ [EvSetInt gFieldIds.mBatteryTemperature t] ++
              opens (batteryStatusPath p) ++ [EvSetInt gFieldIds.mBatteryStatus s] ++
              opens (batteryHealthPath p) ++
              (if ok (batteryHealthPath p)
               then [EvSetInt gFieldIds.mBatteryHealth
                       (getBatteryHealth k (buf (batteryHealthPath p)))]
               else []) ++
              opens (batteryTechnologyPath p) ++
              (if ok (batteryTechnologyPath p)
               then [EvSetTechnology (c_str (buf (batteryTechnologyPath p)))]
               else [])) |}
  end.
Proof.
  cbv zeta. unfold update_attributes, setVoltageField, setIntField, read_ok, read_buf. run.
  destruct (readFromFile fs (batteryVoltagePath (gPaths g)) 128) as [nv bv].
  destruct (readFromFile fs (batteryTemperaturePath (gPaths g)) 128) as [nt bt].
  destruct (readFromFile fs (batteryStatusPath (gPaths g)) 128) as [ns bs].
  destruct (readFromFile fs (batteryHealthPath (gPaths g)) 128) as [nh bh].
  destruct (readFromFile fs (batteryTechnologyPath (gPaths g)) 128) as [nx bx].
  cbn [fst snd].
  destruct (Z.ltb 0 nv);
    [destruct (Int32.div (atoi bv) (gVoltageDivisor g)); [|reflexivity]|];
    destruct (Z.ltb 0 nt), (Z.ltb 0 ns), (Z.ltb 0 nh), (Z.ltb 0 nx);
    cbn [obj trace put_int put_technology
         acOnline usbOnline wirelessOnline batteryPresent batteryStatus batteryHealth
         batteryLevel batteryVoltage batteryTemperature batteryTechnology];
    rewrite <- ?List.app_assoc, ?List.app_nil_r; reflexivity.
Qed.

(** setChargeLevel, case by case. *)
Lemma setChargeLevel_run g fs fieldID w :
  let now := batteryChargeNowPath (gPaths g) in
  let full := batteryChargeFullPath (gPaths g) in
  setChargeLevel g fs fieldID w =
  if read_ok fs now 128
  then if read_ok fs full 128
       then match Int32.div (Int32.mul (atoi (read_buf fs now 128)) 100)
                            (atoi (read_buf fs full 128)) with
            | Some value =>
                Done tt {| obj := put_int fieldID value (obj w);
                           trace := trace w ++ opens now ++ opens full
                                            ++ [EvSetInt fieldID value] |}
            | None => Crash SIGFPE
            end
       else Done tt {| obj := obj w; trace := trace w ++ opens now ++ opens full |}
  else Done tt {| obj := obj w; trace := trace w ++ opens now |}.
Proof.
  cbv zeta. unfold setChargeLevel, read_ok, read_buf. run.
  destruct (readFromFile fs (batteryChargeNowPath (gPaths g)) 128) as [n1 b1].
  destruct (readFromFile fs (batteryChargeFullPath (gPaths g)) 128) as [n2 b2].
  cbn [fst snd].
  destruct (Z.ltb 0 n1); [|destruct w; reflexivity].
  destruct (Z.ltb 0 n2); cbn [obj trace]; rewrite <- ?List.app_assoc; [|reflexivity].
  destruct (Int32.div _ _); cbn [obj trace]; rewrite <- ?List.app_assoc; reflexivity.
Qed.

(** Without a presence path the level block opens nothing. *)
Lemma update_level_unset g fs w :
  isEmpty (batteryPresentPath (gPaths g)) = true ->
  update_level g fs w =
  Done tt {| obj := put_int gFieldIds.mBatteryLevel 100
                      (put_boolean gFieldIds.mBatteryPresent false (obj w));
             trace := trace w ++ [EvSetBoolean gFieldIds.mBatteryPresent false;
                                  EvSetInt gFieldIds.mBatteryLevel 100] |}.
Proof.
  intros E. unfold update_level, setBooleanField. rewrite E.
  destruct (batteryPresentPath (gPaths g)); [|discriminate].
  run. cbn. rewrite List.app_nil_r, <- List.app_assoc. reflexivity.
Qed.

(** The level block stores to mBatteryPresent and mBatteryLevel only. *)
Lemma update_level_frame g fs w w1 :
  update_level g fs w = Done tt w1 ->
  exists evs present,
    trace w1 = trace w ++ evs
    /\ Forall level_event evs
    /\ (obj w1 = put_boolean gFieldIds.mBatteryPresent present (obj w)
        \/ exists level,
             obj w1 = put_int gFieldIds.mBatteryLevel level
                        (put_boolean gFieldIds.mBatteryPresent present (obj w))).
Proof.
  unfold update_level, setBooleanField, setIntField. run.
  destruct (readFromFile fs (batteryPresentPath (gPaths g)) 16) as [np bp].
  set (present := if Z.ltb 0 np then _ else false).
  assert (Hop : forall path, Forall level_event (opens path)).
  { intros path. unfold opens.
    destruct (isEmpty path); [constructor | constructor; [left; eauto | constructor]]. }
  assert (Hb : level_event (EvSetBoolean gFieldIds.mBatteryPresent present))
    by (right; left; eauto).
  assert (Hi : forall v, level_event (EvSetInt gFieldIds.mBatteryLevel v))
    by (intros v; right; right; eauto).
  destruct (isEmpty (batteryPresentPath (gPaths g))).
  - intros [= <-]. cbn [obj trace]. rewrite <- !List.app_assoc.
    eexists _, present. split; [reflexivity|]. split; [|right; eauto].
    repeat (apply List.Forall_app; split); auto.
  - destruct (isEmpty (batteryCapacityPath (gPaths g))).
    + rewrite setChargeLevel_run. cbv zeta. cbn [obj trace].
      destruct (read_ok fs (batteryChargeNowPath (gPaths g)) 128);
        [destruct (read_ok fs (batteryChargeFullPath (gPaths g)) 128);
         [destruct (Int32.div _ _); [|discriminate]|]|];
        intros [= <-]; cbn [obj trace]; rewrite <- !List.app_assoc;
        eexists _, present; (split; [reflexivity|]);
        (split; [repeat (apply List.Forall_app; split); auto|]); eauto.
    + destruct (readFromFile fs (batteryCapacityPath (gPaths g)) 128) as [nc bc].
      intros [= <-]. cbn [obj trace]. rewrite <- !List.app_assoc.
      eexists _, present. split; [reflexivity|]. split; [|right; eauto].
      repeat (apply List.Forall_app; split); auto.
Qed.

End PollFacts.

Module TraceFacts.
Import Trace.

Lemma sets_int_app f a b : sets_int f (a ++ b) = sets_int f a || sets_int f b.
Proof. apply existsb_app. Qed.

Lemma sets_technology_app a b :
  sets_technology (a ++ b) = sets_technology a || sets_technology b.
Proof. apply existsb_app. Qed.

Lemma sets_int_cons f e l :
  sets_int f (e :: l) =
  match e with EvSetInt f' _ => int_eqb f f' | _ => false end || sets_int f l.
Proof. reflexivity. Qed.

Lemma sets_technology_cons e l :
  sets_technology (e :: l) =
  match e with EvSetTechnology _ => true | _ => false end || sets_technology l.
Proof. reflexivity. Qed.

Lemma sets_int_nil f : sets_int f [] = false.
Proof. reflexivity. Qed.

Lemma sets_technology_nil : sets_technology [] = false.
Proof. reflexivity. Qed.

Lemma sets_int_opens f path : sets_int f (opens path) = false.
Proof. unfold opens. destruct (isEmpty path); reflexivity. Qed.

Lemma sets_technology_opens path : sets_technology (opens path) = false.
Proof. unfold opens. destruct (isEmpty path); reflexivity. Qed.

Create Rewrite HintDb trace.
#[export] Hint Rewrite sets_int_app sets_int_cons sets_int_nil sets_int_opens
  sets_technology_app sets_technology_cons sets_technology_nil sets_technology_opens
  : trace.

Lemma level_event_sets_int f evs :
  Forall level_event evs -> int_eqb f gFieldIds.mBatteryLevel = false ->
  sets_int f evs = false.
Proof.
  intros F Hf. unfold sets_int. induction F as [|e evs He _ IH]; [reflexivity|].
  cbn [existsb]. rewrite IH, orb_false_r.
  destruct He as [(p & ->)|[(v & ->)|(v & ->)]]; auto.
Qed.

Lemma level_event_sets_technology evs :
  Forall level_event evs -> sets_technology evs = false.
Proof.
  intros F. unfold sets_technology. induction F as [|e evs He _ IH]; [reflexivity|].
  cbn [existsb]. rewrite IH, orb_false_r.
  destruct He as [(p & ->)|[(v & ->)|(v & ->)]]; reflexivity.
Qed.

Lemma charger_event_sets names f evs :
  Forall (fun e => charger_open names e \/ exists b v, e = EvSetBoolean b v) evs ->
  sets_int f evs = false /\ sets_technology evs = false.
Proof.
  intros F. unfold sets_int, sets_technology.
  induction F as [|e evs He _ [IH1 IH2]]; [split; reflexivity|].
  cbn [existsb]. rewrite IH1, IH2, !orb_false_r.
  destruct He as [(name & _ & [->| ->])|(b & v & ->)]; split; reflexivity.
Qed.

Lemma In_opened path evs : In path (opened evs) <-> In (EvOpen path) evs.
Proof.
  unfold opened. rewrite in_flat_map. split.
  - intros (e & He & Hp). destruct e; cbn in Hp; try contradiction.
    destruct Hp as [->|[]]. exact He.
  - intros H. exists (EvOpen path). split; [exact H | now left].
Qed.

Lemma In_opens path p : In (EvOpen path) (opens p) -> path = p.
Proof.
  unfold opens. destruct (isEmpty p); cbn; [contradiction|].
  intros [[= ->]|[]]. reflexivity.
Qed.

End TraceFacts.

Section Update.
Import CStr Libc Spec Trace TraceFacts PollFacts.
Variable g : globals.
Variable fs : filesystem.

Lemma update_phases w w' :
  android_server_BatteryService_update g fs w = Done tt w' ->
  exists w1 w2,
    update_level g fs w = Done tt w1
    /\ update_attributes g fs w1 = Done tt w2
    /\ update_chargers g fs w2 = Done tt w'.
Proof.
  unfold android_server_BatteryService_update, bind.
  destruct (update_level g fs w) as [[] w1|] eqn:L; [|discriminate].
  destruct (update_attributes g fs w1) as [[] w2|] eqn:A; [|discriminate].
  intros H. exists w1, w2. repeat split; assumption.
Qed.

(** C10, amended. On a poll that completes: mBatteryHealth and
    mBatteryTechnology are stored exactly when their read yields data and keep
    their previous value otherwise (an unset path never yields data);
    mBatteryStatus, mBatteryVoltage and mBatteryTemperature are stored on
    every such poll, with the Unknown status code, 0 and 0 when their read
    yields nothing. *)
Theorem update_keeps_unread_health_and_technology w w' :
  android_server_BatteryService_update g fs w = Done tt w' ->
  let p := gPaths g in
  let k := gConstants g in
  let ok path := read_ok fs path 128 in
  let buf path := read_buf fs path 128 in
  exists evs,
    trace w' = trace w ++ evs
    /\ ok EmptyString = false
    /\ sets_int gFieldIds.mBatteryHealth evs = ok (batteryHealthPath p)
    /\ batteryHealth (obj w') =
         (if ok (batteryHealthPath p)
          then getBatteryHealth k (buf (batteryHealthPath p))
          else batteryHealth (obj w))
    /\ sets_technology evs = ok (batteryTechnologyPath p)
    /\ batteryTechnology (obj w') =
         (if ok (batteryTechnologyPath p)
          then Some (c_str (buf (batteryTechnologyPath p)))
          else batteryTechnology (obj w))
    /\ sets_int gFieldIds.mBatteryStatus evs = true
    /\ batteryStatus (obj w') =
         (if ok (batteryStatusPath p)
          then getBatteryStatus k (buf (batteryStatusPath p))
          else statusUnknown k)
    /\ sets_int gFieldIds.mBatteryVoltage evs = true
    /\ batteryVoltage (obj w') =
         (if ok (batteryVoltagePath p)
          then Int32.wrap (Z.quot (atoi (buf (batteryVoltagePath p))) (gVoltageDivisor g))
          else 0)
    /\ sets_int gFieldIds.mBatteryTemperature evs = true
    /\ batteryTemperature (obj w') =
         (if ok (batteryTemperaturePath p)
          then atoi (buf (batteryTemperaturePath p))
          else 0).
Proof.
  intros H. cbv zeta.
  destruct (update_phases w w' H) as (w1 & w2 & L & A & C).
  destruct (update_level_frame g fs w w1 L) as (evs1 & present & T1 & F1 & O1).
  rewrite update_attributes_run in A. cbv zeta in A.
  destruct (update_chargers_run g fs w2) as (evs3 & C' & F3).
  rewrite C' in C. injection C as <-. clear C'.
  destruct (charger_event_sets _ gFieldIds.mBatteryHealth _ F3) as [S3h S3t].
  destruct (charger_event_sets _ gFieldIds.mBatteryStatus _ F3) as [S3s _].
  destruct (charger_event_sets _ gFieldIds.mBatteryVoltage _ F3) as [S3v _].
  destruct (charger_event_sets _ gFieldIds.mBatteryTemperature _ F3) as [S3m _].
  pose proof (level_event_sets_technology _ F1) as S1t.
  pose proof (level_event_sets_int gFieldIds.mBatteryHealth _ F1 eq_refl) as S1h.
  assert (V : exists v,
             (if read_ok fs (batteryVoltagePath (gPaths g)) 128
              then Int32.div (atoi (read_buf fs (batteryVoltagePath (gPaths g)) 128))
                             (gVoltageDivisor g)
              else Some 0) = Some v).
  { destruct (if read_ok fs (batteryVoltagePath (gPaths g)) 128 then _ else _);
      [eauto | discriminate]. }
  destruct V as (v & V). rewrite V in A. injection A as <-.
  cbn [obj trace]. rewrite T1.
  eexists. split; [rewrite <- !List.app_assoc; reflexivity|].
  assert (Hobj : batteryHealth (obj w1) = batteryHealth (obj w)
                 /\ batteryTechnology (obj w1) = batteryTechnology (obj w))
    by (destruct O1 as [->|(lv & ->)]; split; reflexivity).
  destruct Hobj as [Hh Ht].
  cbn [put_boolean acOnline usbOnline wirelessOnline batteryPresent batteryStatus
       batteryHealth batteryLevel batteryVoltage batteryTemperature batteryTechnology].
  rewrite Hh, Ht.
  destruct (read_ok fs (batteryHealthPath (gPaths g)) 128),
           (read_ok fs (batteryTechnologyPath (gPaths g)) 128);
    autorewrite with trace; rewrite ?S1t, ?S1h, ?S3h, ?S3t, ?S3s, ?S3v, ?S3m;
    cbn [int_eqb orb]; rewrite ?orb_true_r;
    (repeat split; try reflexivity);
    (destruct (read_ok fs (batteryVoltagePath (gPaths g)) 128); [|congruence]);
    unfold Int32.div in V; destruct (Z.eqb (gVoltageDivisor g) 0);
    first [congruence | destruct (andb _ _); congruence].
Qed.

(** C5, amended. On a poll that completes mAcOnline is stored as true when
    gChargerNames is empty, and otherwise as the disjunction over the charger
    entries of "online reads as true and type classifies as AC"; so it is
    true exactly when the vector is empty or some entry is such a charger.
    Registration over an unopenable or empty directory leaves the vector
    empty. *)
Theorem update_acOnline w w' :
  android_server_BatteryService_update g fs w = Done tt w' ->
  acOnline (obj w') =
    match gChargerNames g with
    | [] => true
    | names => existsb (supplies fs ANDROID_POWER_SUPPLY_TYPE_AC) names
    end
  /\ (acOnline (obj w') = true <->
      gChargerNames g = []
      \/ exists name,
           In name (gChargerNames g)
           /\ reports_online fs name = true
           /\ readPowerSupplyType fs (supply_file name "type") = ANDROID_POWER_SUPPLY_TYPE_AC)
  /\ (forall k files,
        gChargerNames (register_android_server_BatteryService
                         {| fs_files := files; fs_dir := None |} (initial_globals k)) = []
        /\ gChargerNames (register_android_server_BatteryService
                            {| fs_files := files; fs_dir := Some [] |} (initial_globals k)) = []).
Proof.
  intros H.
  destruct (update_phases w w' H) as (w1 & w2 & _ & _ & C).
  destruct (update_chargers_run g fs w2) as (evs3 & C' & _).
  rewrite C' in C. injection C as <-. clear C'.
  cbn [obj put_boolean acOnline].
  split; [destruct (gChargerNames g); reflexivity|].
  split; [|intros k files; split; reflexivity].
  destruct (gChargerNames g) as [|n rest] eqn:E.
  - split; [now left | reflexivity].
  - rewrite existsb_exists. unfold supplies. split.
    + intros (name & Hin & Hs). right. exists name.
      apply andb_prop in Hs as [Hon Hty]. repeat split; try assumption.
      destruct (readPowerSupplyType fs (supply_file name "type")); try discriminate.
      reflexivity.
    + intros [?|(name & Hin & Hon & Hty)]; [discriminate|].
      exists name. split; [exact Hin|]. rewrite Hon, Hty. reflexivity.
Qed.

(** C1, amended. When batteryPresentPath is empty, a poll that completes
    stores false to mBatteryPresent and 100 to mBatteryLevel; the presence and
    level block opens no file at all, and every file opened during the poll
    is the voltage, temperature, status, health or technology path or the
    online or type file of a charger entry. *)
Theorem update_without_present_path w w' :
  isEmpty (batteryPresentPath (gPaths g)) = true ->
  android_server_BatteryService_update g fs w = Done tt w' ->
  batteryPresent (obj w') = false
  /\ batteryLevel (obj w') = 100
  /\ update_level g fs w =
       Done tt {| obj := put_int gFieldIds.mBatteryLevel 100
                           (put_boolean gFieldIds.mBatteryPresent false (obj w));
                  trace := trace w ++ [EvSetBoolean gFieldIds.mBatteryPresent false;
                                       EvSetInt gFieldIds.mBatteryLevel 100] |}
  /\ exists evs,
       trace w' = trace w ++ evs
       /\ forall path, In path (opened evs) ->
            In path [batteryVoltagePath (gPaths g); batteryTemperaturePath (gPaths g);
                     batteryStatusPath (gPaths g); batteryHealthPath (gPaths g);
                     batteryTechnologyPath (gPaths g)]
            \/ exists name, In name (gChargerNames g)
                 /\ (path = supply_file name "online" \/ path = supply_file name "type").
Proof.
  intros E H.
  destruct (update_phases w w' H) as (w1 & w2 & L & A & C).
  pose proof (update_level_unset g fs w E) as L'. rewrite L' in L. injection L as <-.
  rewrite update_attributes_run in A. cbv zeta in A.
  destruct (if read_ok fs (batteryVoltagePath (gPaths g)) 128 then _ else _) as [v|];
    [|discriminate].
  injection A as <-.
  match type of C with
  | update_chargers _ _ ?w2 = _ =>
      destruct (update_chargers_run g fs w2) as (evs3 & C' & F3)
  end.
  rewrite C' in C. injection C as <-. clear C'.
  cbn [obj trace put_boolean put_int acOnline usbOnline wirelessOnline batteryPresent
       batteryStatus batteryHealth batteryLevel batteryVoltage batteryTemperature
       batteryTechnology].
  repeat (split; [reflexivity|]). split; [exact L'|].
  eexists. split; [rewrite <- !List.app_assoc; reflexivity|].
  intros path Hin. apply In_opened in Hin.
  repeat match goal with
         | Hx : In _ (_ ++ _) |- _ => apply in_app_or in Hx; destruct Hx as [Hx|Hx]
         | Hx : In _ (_ :: _) |- _ => destruct Hx as [Hx|Hx]; [discriminate|]
         | Hx : In _ [] |- _ => destruct Hx
         | Hx : In _ (opens _) |- _ => apply In_opens in Hx; subst path
         | Hx : In _ (if ?b then _ else _) |- _ => destruct b
         end;
    try (left; cbn; tauto).
  right. rewrite List.Forall_forall in F3. destruct (F3 _ Hin) as [Hc|(b & v' & Hb)];
    [|discriminate].
  destruct Hc as (name & Hn & [[= ->]|[= ->]]); exists name; tauto.
Qed.

End Update.

(** ** Integer facts *)

Module Int32Facts.
Import Int32.

Lemma wrap_in_range z : in_range z -> wrap z = z.
Proof.
  unfold in_range, INT_MIN, INT_MAX, wrap. intros H.
  rewrite Z.mod_small; lia.
Qed.

Lemma quot_in_range a b :
  in_range a -> b <> 0 -> (a <> INT_MIN \/ b <> -1) -> in_range (Z.quot a b).
Proof.
  unfold in_range, INT_MIN, INT_MAX. intros Ha Hb Hm.
  assert (Habs : Z.abs (Z.quot a b) <= Z.abs a).
  { rewrite <- Z.quot_abs by exact Hb.
    destruct (Z.eq_dec (Z.abs a) 0) as [E|E].
    - rewrite E. rewrite Z.quot_0_l; lia.
    - apply Z.quot_le_upper_bound; nia. }
  destruct (Z.eq_dec a (-2147483648)) as [E|E].
  - subst a. destruct Hm as [Hm|Hm]; [contradiction|].
    assert (Z.abs (Z.quot (-2147483648) b) <= 2147483648) by lia.
    destruct (Z.eq_dec b 1) as [->|].
    + rewrite Z.quot_1_r. lia.
    + assert (2 <= Z.abs b) by lia.
      assert (Z.abs (Z.quot (-2147483648) b) <= 1073741824).
      { rewrite <- Z.quot_abs by exact Hb. apply Z.quot_le_upper_bound; lia. }
      lia.
  - lia.
Qed.

(** In range the 32-bit expression [now * 100 / full] is the exact quotient. *)
Lemma percent_exact now full :
  in_range (now * 100) -> full <> 0 ->
  div (mul now 100) full = Some (Z.quot (now * 100) full).
Proof.
  intros Hr Hf. unfold div, mul.
  assert (Hm : now * 100 <> INT_MIN).
  { unfold INT_MIN. intros E.
    assert (H : (now * 100) mod 100 = 0) by apply Z_mod_mult.
    rewrite E in H. discriminate. }
  destruct (Z.eqb_spec full 0) as [E|_]; [contradiction|].
  rewrite (wrap_in_range (now * 100)) by exact Hr.
  destruct (Z.eqb_spec (now * 100) INT_MIN) as [E|_]; [contradiction|].
  cbn [andb].
  rewrite wrap_in_range; [reflexivity|].
  apply quot_in_range; [exact Hr | exact Hf | left; exact Hm].
Qed.

Lemma div_zero a : div a 0 = None.
Proof. reflexivity. Qed.

(** The division traps on exactly the operands of [traps]. *)
Lemma div_None a b : div a b = None <-> traps a b.
Proof.
  unfold div, traps.
  destruct (Z.eqb_spec b 0) as [E|E]; [tauto|].
  destruct (Z.eqb_spec a INT_MIN) as [Ea|Ea], (Z.eqb_spec b (-1)) as [Eb|Eb];
    cbn [andb]; split; try tauto; try discriminate;
    intros [?|[? ?]]; contradiction.
Qed.

Lemma div_Some a b : ~ traps a b -> div a b = Some (wrap (Z.quot a b)).
Proof.
  intros H. destruct (div a b) as [v|] eqn:E.
  - revert E. unfold div.
    destruct (Z.eqb b 0); [discriminate|].
    destruct (andb _ _); [discriminate|]. intros e. symmetry. exact e.
  - apply div_None in E. contradiction.
Qed.

Lemma traps_dec a b : {traps a b} + {~ traps a b}.
Proof.
  destruct (div a b) eqn:E.
  - right. intros H. apply div_None in H. congruence.
  - left. apply div_None. exact E.
Qed.

(** A positive divisor never traps. *)
Lemma positive_divisor a b : 0 < b -> ~ traps a b.
Proof. unfold traps. lia. Qed.

End Int32Facts.

(** ** The charge level *)

Section ChargeLevel.
Import CStr Libc Spec Trace PollFacts Int32Facts.
Variable g : globals.
Variable fs : filesystem.

Abbreviation now := (batteryChargeNowPath (gPaths g)).
Abbreviation full := (batteryChargeFullPath (gPaths g)).

(** X15. Both reads succeed, the product fits in an int and the divisor is not
    zero: the truncated quotient is stored. *)
Lemma setChargeLevel_exact fieldID w :
  read_ok fs now 128 = true -> read_ok fs full 128 = true ->
  Int32.in_range (atoi (read_buf fs now 128) * 100) ->
  atoi (read_buf fs full 128) <> 0 ->
  exists evs,
    setChargeLevel g fs fieldID w =
    Done tt {| obj := put_int fieldID
                        (Z.quot (atoi (read_buf fs now 128) * 100)
                                (atoi (read_buf fs full 128)))
                        (obj w);
               trace := trace w ++ evs |}.
Proof.
  intros H1 H2 Hr Hz. rewrite setChargeLevel_run. cbv zeta.
  rewrite H1, H2, percent_exact by assumption. eauto.
Qed.

(** X16. Either read fails: no store, the object is as before. *)
Lemma setChargeLevel_unchanged fieldID w :
  read_ok fs now 128 = false \/ read_ok fs full 128 = false ->
  exists evs,
    setChargeLevel g fs fieldID w = Done tt {| obj := obj w; trace := trace w ++ evs |}
    /\ sets_int fieldID evs = false.
Proof.
  intros H. rewrite setChargeLevel_run. cbv zeta.
  destruct (read_ok fs now 128); [destruct (read_ok fs full 128)|].
  - destruct H; discriminate.
  - eexists. split; [reflexivity|].
    unfold sets_int. rewrite existsb_app. fold (sets_int fieldID (opens now)).
    fold (sets_int fieldID (opens full)).
    now rewrite !TraceFacts.sets_int_opens.
  - eexists. split; [reflexivity|]. apply TraceFacts.sets_int_opens.
Qed.

(** C4. When both reads of the charge pair succeed and the charge-full text
    parses to 0, setChargeLevel divides by zero and traps; with a presence
    path and no capacity path the whole poll traps there. *)
Theorem setChargeLevel_divides_by_zero fieldID w :
  read_ok fs now 128 = true -> read_ok fs full 128 = true ->
  atoi (read_buf fs full 128) = 0 ->
  setChargeLevel g fs fieldID w = Crash SIGFPE
  /\ (isEmpty (batteryPresentPath (gPaths g)) = false ->
      isEmpty (batteryCapacityPath (gPaths g)) = true ->
      android_server_BatteryService_update g fs w = Crash SIGFPE).
Proof.
  intros H1 H2 Hz.
  assert (Hc : forall w0, setChargeLevel g fs fieldID w0 = Crash SIGFPE).
  { intros w0. rewrite setChargeLevel_run. cbv zeta.
    rewrite H1, H2, Hz. reflexivity. }
  split; [apply Hc|]. intros Hp Hcap.
  unfold android_server_BatteryService_update, update_level, setBooleanField.
  rewrite Hp, Hcap. run.
  destruct (readFromFile fs (batteryPresentPath (gPaths g)) 16) as [np bp].
  rewrite setChargeLevel_run. cbv zeta.
  rewrite H1, H2, Hz. reflexivity.
Qed.

End ChargeLevel.

(** ** Discovery *)

Section DiscoveryFacts.
Variable fs : filesystem.

(** The battery block as the composition of its steps. *)
Lemma scan_battery_steps name g :
  let p4 := scan_capacity fs name
              (scan_one fs "present" set_batteryPresentPath name
                 (scan_one fs "health" set_batteryHealthPath name
                    (scan_one fs "status" set_batteryStatusPath name (gPaths g)))) in
  let pd := scan_voltage fs name (p4, gVoltageDivisor g) in
  gPaths (scan_battery fs name g) =
    scan_one fs "technology" set_batteryTechnologyPath name
      (scan_temperature fs name (fst pd))
  /\ gVoltageDivisor (scan_battery fs name g) = snd pd.
Proof.
  cbv zeta. unfold scan_battery.
  destruct (scan_voltage fs name _) as [p d]. split; reflexivity.
Qed.

Lemma scan_one_keeps leaf set name proj :
  (forall v, keeps proj (set v)) -> keeps proj (scan_one fs leaf set name).
Proof.
  intros H p. unfold scan_one. destruct (access fs _); [apply H | reflexivity].
Qed.

Lemma scan_temperature_keeps name proj :
  (forall v, keeps proj (set_batteryTemperaturePath v)) ->
  keeps proj (scan_temperature fs name).
Proof.
  intros H p. unfold scan_temperature.
  destruct (access fs _); [apply H|]. destruct (access fs _); [apply H | reflexivity].
Qed.

Lemma scan_voltage_keeps name proj d :
  (forall v, keeps proj (set_batteryVoltagePath v)) ->
  keeps proj (fun p => fst (scan_voltage fs name (p, d))).
Proof.
  intros H p. unfold scan_voltage.
  destruct (access fs _); [apply H|]. destruct (access fs _); [apply H | reflexivity].
Qed.

Lemma scan_capacity_keeps name proj :
  (forall v, keeps proj (set_batteryCapacityPath v)) ->
  (forall v, keeps proj (set_batteryChargeNowPath v)) ->
  (forall v, keeps proj (set_batteryChargeFullPath v)) ->
  keeps proj (scan_capacity fs name).
Proof.
  intros H1 H2 H3 p. unfold scan_capacity.
  repeat (destruct (access fs _); rewrite ?H1, ?H3, ?H2; try reflexivity).
Qed.

Ltac keeps_trivial := intros ? ?; reflexivity.

(** C2, amended. Scanning a Battery directory: the capacity path becomes
    [capacity] when that file is readable.  Otherwise a readable charge_now is
    recorded as the charge-now path whether or not charge_full is readable,
    charge_full is recorded when it is readable too, and the energy pair is
    not looked at; only when charge_now is unreadable is energy_now tried,
    and then energy_full, in the same way.  Whatever is not recorded keeps
    its previous value. *)
Theorem scan_battery_capacity name g :
  let p := gPaths g in
  let p' := gPaths (scan_battery fs name g) in
  let ok leaf := access fs (supply_file name leaf) in
  batteryCapacityPath p' =
    (if ok "capacity" then supply_file name "capacity" else batteryCapacityPath p)
  /\ batteryChargeNowPath p' =
    (if ok "capacity" then batteryChargeNowPath p
     else if ok "charge_now" then supply_file name "charge_now"
     else if ok "energy_now" then supply_file name "energy_now"
     else batteryChargeNowPath p)
  /\ batteryChargeFullPath p' =
    (if ok "capacity" then batteryChargeFullPath p
     else if ok "charge_now"
          then if ok "charge_full" then supply_file name "charge_full"
               else batteryChargeFullPath p
     else if ok "energy_now"
          then if ok "energy_full" then supply_file name "energy_full"
               else batteryChargeFullPath p
     else batteryChargeFullPath p).
Proof.
  cbv zeta. destruct (scan_battery_steps name g) as [-> _]. cbv zeta.
  set (p3 := scan_one fs "present" _ name _).
  assert (K : forall proj,
             (forall v, keeps proj (set_batteryTechnologyPath v)) ->
             (forall v, keeps proj (set_batteryTemperaturePath v)) ->
             (forall v, keeps proj (set_batteryVoltagePath v)) ->
             proj (scan_one fs "technology" set_batteryTechnologyPath name
                     (scan_temperature fs name
                        (fst (scan_voltage fs name
                                (scan_capacity fs name p3, gVoltageDivisor g)))))
             = proj (scan_capacity fs name p3)).
  { intros proj H1 H2 H3.
    rewrite scan_one_keeps by exact H1. rewrite scan_temperature_keeps by exact H2.
    apply (scan_voltage_keeps name proj (gVoltageDivisor g) H3). }
  rewrite !K by keeps_trivial.
  assert (P : batteryCapacityPath p3 = batteryCapacityPath (gPaths g)
              /\ batteryChargeNowPath p3 = batteryChargeNowPath (gPaths g)
              /\ batteryChargeFullPath p3 = batteryChargeFullPath (gPaths g)).
  { unfold p3. rewrite !scan_one_keeps by keeps_trivial. auto. }
  destruct P as (P1 & P2 & P3). rewrite <- P1, <- P2, <- P3.
  unfold scan_capacity.
  destruct (access fs (supply_file name "capacity")),
           (access fs (supply_file name "charge_now")),
           (access fs (supply_file name "charge_full")),
           (access fs (supply_file name "energy_now")),
           (access fs (supply_file name "energy_full"));
    repeat split; reflexivity.
Qed.

(** The voltage block: voltage_now sets the divisor to 1000; batt_vol leaves
    the divisor as it was. *)
Lemma scan_voltage_cases name p d :
  scan_voltage fs name (p, d) =
  if access fs (supply_file name "voltage_now")
  then (set_batteryVoltagePath (supply_file name "voltage_now") p, 1000)
  else if access fs (supply_file name "batt_vol")
       then (set_batteryVoltagePath (supply_file name "batt_vol") p, d)
       else (p, d).
Proof. reflexivity. Qed.

Lemma scan_battery_voltage name g :
  let g' := scan_battery fs name g in
  (batteryVoltagePath (gPaths g'), gVoltageDivisor g') =
  if access fs (supply_file name "voltage_now")
  then (supply_file name "voltage_now", 1000)
  else if access fs (supply_file name "batt_vol")
       then (supply_file name "batt_vol", gVoltageDivisor g)
       else (batteryVoltagePath (gPaths g), gVoltageDivisor g).
Proof.
  cbv zeta. destruct (scan_battery_steps name g) as [-> ->]. cbv zeta.
  rewrite scan_one_keeps, scan_temperature_keeps by keeps_trivial.
  set (p4 := scan_capacity fs name _).
  assert (E : batteryVoltagePath p4 = batteryVoltagePath (gPaths g)).
  { unfold p4. rewrite scan_capacity_keeps by keeps_trivial.
    rewrite !scan_one_keeps by keeps_trivial. reflexivity. }
  rewrite scan_voltage_cases.
  destruct (access fs (supply_file name "voltage_now"));
    [|destruct (access fs (supply_file name "batt_vol"))];
    cbn [fst snd]; rewrite <- ?E; reflexivity.
Qed.

(** After registration the divisor is 1 or 1000, so the voltage division
    never traps. *)
Lemma scan_entry_divisor g name :
  gVoltageDivisor g = 1 \/ gVoltageDivisor g = 1000 ->
  gVoltageDivisor (scan_entry fs g name) = 1
  \/ gVoltageDivisor (scan_entry fs g name) = 1000.
Proof.
  intros H. unfold scan_entry. destruct (is_dot_entry name); [exact H|].
  destruct (readPowerSupplyType fs (supply_file name "type")); try exact H.
  - unfold scan_charger. destruct (access fs _); exact H.
  - unfold scan_charger. destruct (access fs _); exact H.
  - unfold scan_charger. destruct (access fs _); exact H.
  - pose proof (scan_battery_voltage name g) as E. cbv zeta in E.
    destruct (access fs (supply_file name "voltage_now"));
      [|destruct (access fs (supply_file name "batt_vol"))];
      injection E as _ ->; auto.
Qed.

Lemma register_divisor k :
  let g := register_android_server_BatteryService fs (initial_globals k) in
  gVoltageDivisor g = 1 \/ gVoltageDivisor g = 1000.
Proof.
  cbv zeta. unfold register_android_server_BatteryService.
  destruct (fs_dir fs) as [entries|]; [|now left].
  assert (H : gVoltageDivisor (initial_globals k) = 1
              \/ gVoltageDivisor (initial_globals k) = 1000) by now left.
  revert H. generalize (initial_globals k).
  induction entries as [|name rest IH]; intros g H; [exact H|].
  cbn [fold_left]. apply IH, scan_entry_divisor, H.
Qed.

End DiscoveryFacts.

(** ** Concrete runs *)

Section Runs.
Import CStr Libc Spec Trace Examples.

(** Closed goals over the sample inputs are settled by evaluation. *)
Ltac evaluate :=
  vm_compute;
  repeat match goal with |- _ /\ _ => split end;
  first [reflexivity | discriminate | tauto].

Example health_strings :
  getBatteryHealth android "Overheat" = healthOverheat android
  /\ getBatteryHealth android "Over voltage" = healthOverVoltage android
  /\ getBatteryHealth android "Other" = healthUnknown android
  /\ getBatteryHealth android "Unspecified failure" = healthUnspecifiedFailure android
  /\ getBatteryHealth android "Unknown" = healthUnknown android
  /\ getBatteryHealth android "Good" = healthGood android.
Proof. evaluate. Qed.

Example supply_types :
  readPowerSupplyType laptop (supply_file "AC" "type") = ANDROID_POWER_SUPPLY_TYPE_AC
  /\ readPowerSupplyType laptop (supply_file "BAT0" "type") = ANDROID_POWER_SUPPLY_TYPE_BATTERY
  /\ readPowerSupplyType laptop (supply_file "none" "type") = ANDROID_POWER_SUPPLY_TYPE_UNKNOWN
  /\ readPowerSupplyType (phone "50" "200") (supply_file "usb" "type")
     = ANDROID_POWER_SUPPLY_TYPE_USB.
Proof. evaluate. Qed.

(** now = 50, full = 200 gives 25; now = 1, full = 3 gives 33. *)
Example charge_level_25 :
  batteryLevel (obj (after (poll (phone "50" "200") fresh) fresh)) = 25.
Proof. evaluate. Qed.

Example charge_level_33 :
  batteryLevel (obj (after (poll (phone "1" "3") fresh) fresh)) = 33.
Proof. evaluate. Qed.

(** charge_full disappears after registration: a recorded 42 stays. *)
Example charge_level_kept :
  android_server_BatteryService_update
    (registered (phone "50" "200")) (phone_full_gone "50") at_42
  = Done tt (after (android_server_BatteryService_update
                      (registered (phone "50" "200")) (phone_full_gone "50") at_42) at_42)
  /\ batteryLevel
       (obj (after (android_server_BatteryService_update
                      (registered (phone "50" "200")) (phone_full_gone "50") at_42) at_42))
     = 42.
Proof. evaluate. Qed.

(** voltage_now "3700000" gives 3700; a lone batt_vol "3700" gives 3700. *)
Example voltage_now_microvolts :
  gVoltageDivisor (registered laptop) = 1000
  /\ batteryVoltagePath (gPaths (registered laptop)) = supply_file "BAT0" "voltage_now"
  /\ batteryVoltage (obj (after (poll laptop fresh) fresh)) = 3700.
Proof. evaluate. Qed.

Example batt_vol_millivolts :
  gVoltageDivisor (registered (phone "50" "200")) = 1
  /\ batteryVoltagePath (gPaths (registered (phone "50" "200")))
     = supply_file "battery" "batt_vol"
  /\ batteryVoltage (obj (after (poll (phone "50" "200") fresh) fresh)) = 3700.
Proof. evaluate. Qed.

(** C3. The laptop reports energy_now = 50000000 and energy_full = 60000000.
    Both reads succeed and the exact percentage is 83, but [now * 100] does
    not fit in 32 bits: the poll completes and stores 11. *)
Theorem setChargeLevel_overflows :
  let g := registered laptop in
  let now := batteryChargeNowPath (gPaths g) in
  let full := batteryChargeFullPath (gPaths g) in
  now = supply_file "BAT0" "energy_now"
  /\ full = supply_file "BAT0" "energy_full"
  /\ read_ok laptop now 128 = true
  /\ read_ok laptop full 128 = true
  /\ atoi (read_buf laptop now 128) = 50000000
  /\ atoi (read_buf laptop full 128) = 60000000
  /\ Z.quot (50000000 * 100) 60000000 = 83
  /\ poll laptop fresh = Done tt (after (poll laptop fresh) fresh)
  /\ batteryLevel (obj (after (poll laptop fresh) fresh)) = 11
  /\ In (EvSetInt gFieldIds.mBatteryLevel 11) (trace (after (poll laptop fresh) fresh)).
Proof. evaluate. Qed.

(** C6. With two Battery directories, the first offering voltage_now and the
    second only batt_vol, registration ends with the batt_vol path of the
    second and the divisor 1000 of the first; batt_vol content "3700" is then
    reported as 3. *)
Theorem batt_vol_divided_by_1000 :
  let g := registered two_batteries in
  batteryVoltagePath (gPaths g) = supply_file "BAT1" "batt_vol"
  /\ gVoltageDivisor g = 1000
  /\ read_buf two_batteries (batteryVoltagePath (gPaths g)) 128 = "3700"
  /\ poll two_batteries fresh = Done tt (after (poll two_batteries fresh) fresh)
  /\ batteryVoltage (obj (after (poll two_batteries fresh) fresh)) = 3.
Proof. evaluate. Qed.

(** C1 as stated fails: without a presence path the poll stores false, not
    true, to mBatteryPresent. *)
Lemma present_false_without_path :
  isEmpty (batteryPresentPath (gPaths (registered desktop))) = true
  /\ poll desktop fresh = Done tt (after (poll desktop fresh) fresh)
  /\ batteryPresent (obj (after (poll desktop fresh) fresh)) = false
  /\ In (EvSetBoolean gFieldIds.mBatteryPresent false)
        (trace (after (poll desktop fresh) fresh))
  /\ batteryPresent (obj (after (poll desktop fresh) fresh)) <> true.
Proof. evaluate. Qed.

(** C2 as stated fails: charge_full is unreadable, yet charge_now is
    recorded; and the readable energy pair is not tried. *)
Lemma charge_now_recorded_alone :
  let p := gPaths (registered half_pair) in
  access half_pair (supply_file "BAT0" "capacity") = false
  /\ access half_pair (supply_file "BAT0" "charge_now") = true
  /\ access half_pair (supply_file "BAT0" "charge_full") = false
  /\ access half_pair (supply_file "BAT0" "energy_now") = true
  /\ access half_pair (supply_file "BAT0" "energy_full") = true
  /\ batteryChargeNowPath p = supply_file "BAT0" "charge_now"
  /\ batteryChargeFullPath p = EmptyString
  /\ batteryChargeNowPath p <> EmptyString
  /\ batteryChargeNowPath p <> supply_file "BAT0" "energy_now".
Proof. evaluate. Qed.

(** C5 as stated fails on a poll that traps: discovery found the charger
    entry usb, which is not an online AC charger, and the object holds true in
    mAcOnline from before; the poll traps in the presence and level block, at
    the division of setChargeLevel, so it never reaches the store to mAcOnline
    and yields no record in which the flag is false. *)
Lemma acOnline_not_stored_on_trap :
  let fs := phone "50" "0" in
  let g := registered fs in
  gChargerNames g = ["usb"]
  /\ existsb (supplies fs ANDROID_POWER_SUPPLY_TYPE_AC) (gChargerNames g) = false
  /\ acOnline (obj on_mains) = true
  /\ update_level g fs on_mains = Crash SIGFPE
  /\ poll fs on_mains = Crash SIGFPE
  /\ forall w', poll fs on_mains <> Done tt w'.
Proof.
  vm_compute. repeat match goal with |- _ /\ _ => split end;
    try reflexivity.
  intros w'. discriminate.
Qed.

(** C10 as stated fails on a poll that traps: the status and voltage files
    are readable and the temperature path is unset, so the claim has all
    three fields written; the poll traps in the presence and level block,
    before the attribute block runs, and stores none of them. *)
Lemma attributes_not_stored_on_trap :
  let fs := phone "50" "0" in
  let g := registered fs in
  read_ok fs (batteryStatusPath (gPaths g)) 128 = true
  /\ read_ok fs (batteryVoltagePath (gPaths g)) 128 = true
  /\ isEmpty (batteryTemperaturePath (gPaths g)) = true
  /\ update_level g fs fresh = Crash SIGFPE
  /\ poll fs fresh = Crash SIGFPE
  /\ forall w', poll fs fresh <> Done tt w'.
Proof.
  vm_compute. repeat match goal with |- _ /\ _ => split end;
    try reflexivity.
  intros w'. discriminate.
Qed.

End Runs.

(** ** When a poll completes *)

Section Completion.
Import CStr Libc Spec Trace PollFacts Int32Facts.
Variable g : globals.
Variable fs : filesystem.

(** The poll traps only in a division: it completes when neither the voltage
    division nor the charge-pair division, where it is performed, is on
    trapping operands. *)
Lemma update_completes w :
  (read_ok fs (batteryVoltagePath (gPaths g)) 128 = false
   \/ ~ Int32.traps (atoi (read_buf fs (batteryVoltagePath (gPaths g)) 128))
                    (gVoltageDivisor g)) ->
  (isEmpty (batteryPresentPath (gPaths g)) = true
   \/ isEmpty (batteryCapacityPath (gPaths g)) = false
   \/ read_ok fs (batteryChargeNowPath (gPaths g)) 128 = false
   \/ read_ok fs (batteryChargeFullPath (gPaths g)) 128 = false
   \/ ~ Int32.traps
          (Int32.mul (atoi (read_buf fs (batteryChargeNowPath (gPaths g)) 128)) 100)
          (atoi (read_buf fs (batteryChargeFullPath (gPaths g)) 128))) ->
  exists w', android_server_BatteryService_update g fs w = Done tt w'.
Proof.
  intros Hd Hl.
  assert (L : exists w1, update_level g fs w = Done tt w1).
  { unfold update_level, setBooleanField, setIntField. run.
    destruct (readFromFile fs (batteryPresentPath (gPaths g)) 16) as [np bp].
    destruct (isEmpty (batteryPresentPath (gPaths g))); [eauto|].
    destruct (isEmpty (batteryCapacityPath (gPaths g))).
    - rewrite setChargeLevel_run. cbv zeta.
      destruct (read_ok fs (batteryChargeNowPath (gPaths g)) 128); [|eauto].
      destruct (read_ok fs (batteryChargeFullPath (gPaths g)) 128); [|eauto].
      destruct Hl as [?|[?|[?|[?|Hl]]]]; try discriminate.
      rewrite (div_Some _ _ Hl). eauto.
    - destruct (readFromFile fs (batteryCapacityPath (gPaths g)) 128). eauto. }
  destruct L as (w1 & L).
  assert (A : exists w2, update_attributes g fs w1 = Done tt w2).
  { rewrite update_attributes_run. cbv zeta.
    destruct (read_ok fs (batteryVoltagePath (gPaths g)) 128); [|eauto].
    destruct Hd as [?|Hd]; [discriminate|].
    rewrite (div_Some _ _ Hd). eauto. }
  destruct A as (w2 & A).
  destruct (update_chargers_run g fs w2) as (evs & C & _).
  unfold android_server_BatteryService_update, bind. rewrite L, A. eauto.
Qed.

(** With a positive voltage divisor, as registration leaves it, and no
    presence path, no division of the poll can trap. *)
Lemma update_completes_without_present_path w :
  0 < gVoltageDivisor g ->
  isEmpty (batteryPresentPath (gPaths g)) = true ->
  exists w', android_server_BatteryService_update g fs w = Done tt w'.
Proof.
  intros Hd Hp. apply update_completes.
  - right. apply positive_divisor. exact Hd.
  - left. exact Hp.
Qed.

End Completion.

(** ** The classifiers *)

Section ClassifierTheorems.
Import CStr CStrFacts Spec ReadFacts Examples.
Variable k : BatteryManagerConstants.

(** C9. getBatteryStatus is decided by the first character of its argument:
    C, D, F, N, U give Charging, Discharging, Full, NotCharging, Unknown and
    anything else (the empty string included) gives Unknown, whatever follows
    the first character; "Charging" and the content "Charging" plus newline
    as readFromFile returns it both give Charging. *)
Theorem getBatteryStatus_first_char :
  (forall status,
     getBatteryStatus k status = status_code k (status_of_string (c_str status)))
  /\ (forall c rest rest',
        getBatteryStatus k (String c rest) = getBatteryStatus k (String c rest'))
  /\ getBatteryStatus k "Charging" = statusCharging k
  /\ readFromFile charging_status (supply_file "battery" "status") 128 = (8, "Charging")
  /\ getBatteryStatus k (snd (readFromFile charging_status
                                 (supply_file "battery" "status") 128))
     = statusCharging k.
Proof.
  split; [apply getBatteryStatus_c_str|].
  split; [reflexivity|]. split; [reflexivity|].
  assert (E : readFromFile charging_status (supply_file "battery" "status") 128
              = (8, "Charging")) by (vm_compute; reflexivity).
  rewrite E. split; reflexivity.
Qed.

End ClassifierTheorems.

Section PlainText.
Import CStr CStrFacts Spec ReadFacts.

Lemma substring_short s : forall n, (String.length s <= n)%nat -> String.substring 0 n s = s.
Proof.
  induction s as [|c s IH]; intros n Hn; [destruct n; reflexivity|].
  destruct n as [|n]; simpl in Hn; [lia|]. simpl. rewrite IH; [reflexivity | lia].
Qed.

Lemma rtrim_nul_free s : nul_free s = true -> nul_free (rtrim s) = true.
Proof.
  induction s as [|c s IH]; simpl; [reflexivity|].
  intros H. apply andb_prop in H as [Hc Hs]. specialize (IH Hs).
  destruct (rtrim s).
  - destruct (Ascii.eqb c LF); [reflexivity|]. simpl. now rewrite Hc.
  - simpl in *. now rewrite Hc, IH.
Qed.

(** For text without NUL that fits the buffer, what the classifiers see is
    the content without its trailing newlines. *)
Lemma trimmed_plain size bytes :
  nul_free bytes = true -> (String.length bytes <= size)%nat ->
  trimmed size bytes = rtrim bytes.
Proof.
  intros Hn Hl. unfold trimmed. rewrite substring_short by exact Hl.
  apply c_str_nul_free, rtrim_nul_free, Hn.
Qed.

End PlainText.

(** ** Instances *)

Section Witnesses.
Import CStr Libc Spec Trace Examples.

Ltac conjuncts := repeat match goal with |- _ /\ _ => split end.

Lemma update_without_present_path_witness :
  isEmpty (batteryPresentPath (gPaths (registered desktop))) = true
  /\ poll desktop fresh = Done tt (after (poll desktop fresh) fresh)
  /\ batteryPresent (obj (after (poll desktop fresh) fresh)) = false
  /\ batteryLevel (obj (after (poll desktop fresh) fresh)) = 100.
Proof.
  assert (E : isEmpty (batteryPresentPath (gPaths (registered desktop))) = true)
    by (vm_compute; reflexivity).
  assert (H : poll desktop fresh = Done tt (after (poll desktop fresh) fresh))
    by (vm_compute; reflexivity).
  pose proof (update_without_present_path (registered desktop) desktop fresh _ E H) as T.
  exact (conj E (conj H (conj (proj1 T) (proj1 (proj2 T))))).
Defined.

Lemma setChargeLevel_divides_by_zero_witness :
  let fs := phone "50" "0" in
  let g := registered fs in
  read_ok fs (batteryChargeNowPath (gPaths g)) 128 = true
  /\ read_ok fs (batteryChargeFullPath (gPaths g)) 128 = true
  /\ atoi (read_buf fs (batteryChargeFullPath (gPaths g)) 128) = 0
  /\ setChargeLevel g fs gFieldIds.mBatteryLevel fresh = Crash SIGFPE
  /\ poll fs fresh = Crash SIGFPE.
Proof.
  cbv zeta.
  assert (H1 : read_ok (phone "50" "0")
                 (batteryChargeNowPath (gPaths (registered (phone "50" "0")))) 128 = true)
    by (vm_compute; reflexivity).
  assert (H2 : read_ok (phone "50" "0")
                 (batteryChargeFullPath (gPaths (registered (phone "50" "0")))) 128 = true)
    by (vm_compute; reflexivity).
  assert (H3 : atoi (read_buf (phone "50" "0")
                       (batteryChargeFullPath (gPaths (registered (phone "50" "0")))) 128)
               = 0)
    by (vm_compute; reflexivity).
  destruct (setChargeLevel_divides_by_zero (registered (phone "50" "0")) (phone "50" "0")
              gFieldIds.mBatteryLevel fresh H1 H2 H3) as [Hc Hu].
  refine (conj H1 (conj H2 (conj H3 (conj Hc (Hu _ _))))); vm_compute; reflexivity.
Defined.

Lemma update_acOnline_witness :
  poll laptop fresh = Done tt (after (poll laptop fresh) fresh)
  /\ gChargerNames (registered laptop) = ["AC"]
  /\ acOnline (obj (after (poll laptop fresh) fresh))
     = existsb (supplies laptop ANDROID_POWER_SUPPLY_TYPE_AC) ["AC"].
Proof.
  assert (H : poll laptop fresh = Done tt (after (poll laptop fresh) fresh))
    by (vm_compute; reflexivity).
  assert (N : gChargerNames (registered laptop) = ["AC"]) by (vm_compute; reflexivity).
  destruct (update_acOnline (registered laptop) laptop fresh _ H) as (Ha & _).
  rewrite N in Ha. exact (conj H (conj N Ha)).
Defined.

Lemma update_keeps_unread_witness :
  poll laptop fresh = Done tt (after (poll laptop fresh) fresh)
  /\ batteryHealthPath (gPaths (registered laptop)) = EmptyString
  /\ batteryHealth (obj (after (poll laptop fresh) fresh)) = batteryHealth (obj fresh)
  /\ batteryTechnology (obj (after (poll laptop fresh) fresh))
     = batteryTechnology (obj fresh)
  /\ batteryTemperature (obj (after (poll laptop fresh) fresh)) = 0.
Proof.
  assert (H : poll laptop fresh = Done tt (after (poll laptop fresh) fresh))
    by (vm_compute; reflexivity).
  destruct (update_keeps_unread_health_and_technology (registered laptop) laptop fresh _ H)
    as (evs & _ & _ & _ & Hh & _ & Ht & _ & _ & _ & _ & _ & Hm).
  split; [exact H|]. split; [vm_compute; reflexivity|].
  rewrite Hh, Ht, Hm. vm_compute. conjuncts; reflexivity.
Defined.

End Witnesses.

(** * Further properties *)

(** ** A poll does not depend on the object it stores to *)

Module PollUniform.
Import CStr Libc Spec Trace PollFacts TraceFacts.

Lemma poll_charger_uniform fs name :
  exists evs,
    Forall (charger_open [name]) evs
    /\ forall o w,
         poll_charger fs name o w =
           Done {| ac := ac o || supplies fs ANDROID_POWER_SUPPLY_TYPE_AC name;
                   usb := usb o || supplies fs ANDROID_POWER_SUPPLY_TYPE_USB name;
                   wireless :=
                     wireless o || supplies fs ANDROID_POWER_SUPPLY_TYPE_WIRELESS name |}
                {| obj := obj w; trace := trace w ++ evs |}.
Proof.
  unfold poll_charger, supplies, reports_online, read_ok, read_buf. run.
  rewrite !opens_supply_file.
  destruct (readFromFile fs (supply_file name "online") 128) as [n buf]. cbn [fst snd].
  assert (Hon : charger_open [name] (EvOpen (supply_file name "online")))
    by (exists name; split; [now left | now left]).
  assert (Hty : charger_open [name] (EvOpen (supply_file name "type")))
    by (exists name; split; [now left | now right]).
  destruct (Z.ltb 0 n); cbn [andb].
  - destruct (negb (Ascii.eqb (char_at buf 0) "0")); cbn [andb].
    + exists [EvOpen (supply_file name "online"); EvOpen (supply_file name "type")].
      split; [repeat constructor; assumption|]. intros o w.
      destruct (readPowerSupplyType fs (supply_file name "type")); cbn [type_eqb obj trace];
        rewrite <- List.app_assoc; cbn [app];
        rewrite ?orb_false_r, ?orb_true_r; destruct o; reflexivity.
    + exists [EvOpen (supply_file name "online")].
      split; [repeat constructor; assumption|]. intros o w.
      rewrite !orb_false_r. destruct o; reflexivity.
  - exists [EvOpen (supply_file name "online")].
    split; [repeat constructor; assumption|]. intros o w.
    rewrite !orb_false_r. destruct o; reflexivity.
Qed.

Lemma poll_chargers_uniform fs names :
  exists evs,
    Forall (charger_open names) evs
    /\ forall i o w,
         poll_chargers fs names i o w =
           Done ((i + List.length names)%nat,
                 {| ac := ac o || existsb (supplies fs ANDROID_POWER_SUPPLY_TYPE_AC) names;
                    usb := usb o || existsb (supplies fs ANDROID_POWER_SUPPLY_TYPE_USB) names;
                    wireless :=
                      wireless o
                      || existsb (supplies fs ANDROID_POWER_SUPPLY_TYPE_WIRELESS) names |})
                {| obj := obj w; trace := trace w ++ evs |}.
Proof.
  induction names as [|name rest (evs2 & F2 & R2)].
  - exists []. split; [constructor|]. intros i o w. cbn.
    rewrite !orb_false_r, List.app_nil_r, Nat.add_0_r. destruct o, w; reflexivity.
  - destruct (poll_charger_uniform fs name) as (evs1 & F1 & R1).
    exists (evs1 ++ evs2). split.
    + apply List.Forall_app. split.
      * eapply List.Forall_impl; [|exact F1]. intros e (nm & Hin & Hx).
        exists nm. split; [|exact Hx]. destruct Hin as [<-|[]]. now left.
      * eapply List.Forall_impl; [|exact F2]. intros e He.
        apply (charger_open_mono rest [name]). exact He.
    + intros i o w. cbn [poll_chargers]. unfold bind at 1. rewrite R1, R2.
      cbn [obj trace ac usb wireless existsb List.length].
      rewrite !orb_assoc, List.app_assoc. do 2 f_equal. lia.
Qed.

Lemma update_chargers_uniform g fs :
  exists evs,
    Forall (fun e => charger_open (gChargerNames g) e \/ exists f v, e = EvSetBoolean f v) evs
    /\ forall w,
         update_chargers g fs w =
           Done tt
             {| obj :=
                  put_boolean gFieldIds.mWirelessOnline
                    (existsb (supplies fs ANDROID_POWER_SUPPLY_TYPE_WIRELESS) (gChargerNames g))
                    (put_boolean gFieldIds.mUsbOnline
                       (existsb (supplies fs ANDROID_POWER_SUPPLY_TYPE_USB) (gChargerNames g))
                       (put_boolean gFieldIds.mAcOnline
                          (match gChargerNames g with
                           | [] => true
                           | _ => existsb (supplies fs ANDROID_POWER_SUPPLY_TYPE_AC)
                                          (gChargerNames g)
                           end)
                          (obj w)));
                trace := trace w ++ evs |}.
Proof.
  destruct (poll_chargers_uniform fs (gChargerNames g)) as (evs & F & R).
  set (a := match gChargerNames g with
            | [] => true
            | _ => existsb (supplies fs ANDROID_POWER_SUPPLY_TYPE_AC) (gChargerNames g)
            end).
  exists (evs ++ [EvSetBoolean gFieldIds.mAcOnline a;
                  EvSetBoolean gFieldIds.mUsbOnline
                    (existsb (supplies fs ANDROID_POWER_SUPPLY_TYPE_USB) (gChargerNames g));
                  EvSetBoolean gFieldIds.mWirelessOnline
                    (existsb (supplies fs ANDROID_POWER_SUPPLY_TYPE_WIRELESS)
                       (gChargerNames g))]).
  split.
  - apply List.Forall_app. split.
    + eapply List.Forall_impl; [|exact F]. intros e He. now left.
    + repeat (constructor; [right; eauto|]). constructor.
  - intros w. unfold update_chargers. unfold bind at 1. rewrite R.
    cbn [ac usb wireless orb Nat.add]. run.
    replace (if Nat.eqb (List.length (gChargerNames g)) 0 then true
             else existsb (supplies fs ANDROID_POWER_SUPPLY_TYPE_AC) (gChargerNames g))
      with a by (unfold a; destruct (gChargerNames g); reflexivity).
    rewrite <- !List.app_assoc. reflexivity.
Qed.

End PollUniform.

Module LevelUniform.
Import CStr Libc Spec Trace PollFacts TraceFacts.

Lemma In_opens_inv path p : In (EvOpen path) (opens p) -> path = p /\ isEmpty p = false.
Proof.
  unfold opens. destruct (isEmpty p) eqn:E; cbn; [contradiction|].
  intros [[= ->]|[]]. auto.
Qed.

(** Decomposes membership in a trace written with [++], [::] and [opens]. *)
Ltac in_trace :=
  repeat match goal with
         | Hx : In _ (_ ++ _) |- _ => apply in_app_or in Hx; destruct Hx as [Hx|Hx]
         | Hx : In (EvOpen _) (_ :: _) |- _ => destruct Hx as [Hx|Hx]; [discriminate|]
         | Hx : In _ [] |- _ => destruct Hx
         | Hx : In (EvOpen _) (opens _) |- _ => apply In_opens_inv in Hx; destruct Hx as [-> ?]
         end.

Ltac forall_events :=
  repeat (apply List.Forall_app; split);
  repeat (apply List.Forall_cons; [solve [auto]|]);
  solve [auto | apply List.Forall_nil].

(** The presence and level block: either it traps whatever the object, or it
    emits fixed events and stores fixed values whatever the object. *)
Lemma update_level_uniform g fs :
  let p := gPaths g in
  let present :=
    read_ok fs (batteryPresentPath p) 16
    && negb (Ascii.eqb (char_at (read_buf fs (batteryPresentPath p) 16) 0) "0") in
  (forall w, update_level g fs w = Crash SIGFPE)
  \/ exists evs ol,
       (forall w,
          update_level g fs w =
          Done tt
            {| obj := match ol with
                      | Some l => put_int gFieldIds.mBatteryLevel l
                                    (put_boolean gFieldIds.mBatteryPresent present (obj w))
                      | None => put_boolean gFieldIds.mBatteryPresent present (obj w)
                      end;
               trace := trace w ++ evs |})
       /\ Forall level_event evs
       /\ (forall path, In (EvOpen path) evs ->
             isEmpty path = false
             /\ In path [batteryPresentPath p; batteryCapacityPath p;
                         batteryChargeNowPath p; batteryChargeFullPath p])
       /\ (isEmpty (batteryPresentPath p) = false ->
           isEmpty (batteryCapacityPath p) = false ->
           ol = Some (if read_ok fs (batteryCapacityPath p) 128
                      then atoi (read_buf fs (batteryCapacityPath p) 128) else 0)
           /\ forall path, In (EvOpen path) evs ->
                In path [batteryPresentPath p; batteryCapacityPath p]).
Proof.
  cbv zeta.
  assert (Hop : forall path, Forall level_event (opens path)).
  { intros path. unfold opens.
    destruct (isEmpty path); [constructor | constructor; [left; eauto | constructor]]. }
  assert (Hb : forall b, level_event (EvSetBoolean gFieldIds.mBatteryPresent b))
    by (intros b; right; left; eauto).
  assert (Hi : forall v, level_event (EvSetInt gFieldIds.mBatteryLevel v))
    by (intros v; right; right; eauto).
  assert (Hrun : forall w,
            update_level g fs w =
            let w1 := {| obj := put_boolean gFieldIds.mBatteryPresent
                                  (read_ok fs (batteryPresentPath (gPaths g)) 16
                                   && negb (Ascii.eqb
                                              (char_at (read_buf fs (batteryPresentPath (gPaths g)) 16) 0)
                                              "0"))
                                  (obj w);
                         trace := trace w ++ opens (batteryPresentPath (gPaths g))
                                    ++ [EvSetBoolean gFieldIds.mBatteryPresent
                                          (read_ok fs (batteryPresentPath (gPaths g)) 16
                                           && negb (Ascii.eqb
                                                      (char_at (read_buf fs (batteryPresentPath (gPaths g)) 16) 0)
                                                      "0"))] |} in
            if isEmpty (batteryPresentPath (gPaths g))
            then SetIntField gFieldIds.mBatteryLevel 100 w1
            else if isEmpty (batteryCapacityPath (gPaths g))
                 then setChargeLevel g fs gFieldIds.mBatteryLevel w1
                 else setIntField fs (batteryCapacityPath (gPaths g))
                        gFieldIds.mBatteryLevel w1).
  { intros w. unfold update_level, setBooleanField, read_ok, read_buf.
    cbv [bind readFromFileM record_opens ret SetBooleanField emit modify].
    destruct (readFromFile fs (batteryPresentPath (gPaths g)) 16) as [np bp].
    cbn [fst snd obj trace]. rewrite <- !List.app_assoc.
    destruct (isEmpty (batteryPresentPath (gPaths g))),
             (isEmpty (batteryCapacityPath (gPaths g)));
      (destruct (Z.ltb 0 np); cbn [andb];
       [destruct (negb (Ascii.eqb (char_at bp 0) "0"))|]; reflexivity). }
  set (pv := read_ok fs (batteryPresentPath (gPaths g)) 16 && _) in *.
  destruct (isEmpty (batteryPresentPath (gPaths g))) eqn:Ep.
  - right.
    exists (opens (batteryPresentPath (gPaths g))
              ++ [EvSetBoolean gFieldIds.mBatteryPresent pv;
                  EvSetInt gFieldIds.mBatteryLevel 100]), (Some 100).
    split; [|split; [|split; [|intros; discriminate]]].
    + intros w. rewrite Hrun. cbv zeta. run. rewrite <- !List.app_assoc. reflexivity.
    + forall_events.
    + intros path Hin. in_trace. congruence.
  - destruct (isEmpty (batteryCapacityPath (gPaths g))) eqn:Ec.
    + destruct (read_ok fs (batteryChargeNowPath (gPaths g)) 128) eqn:E1;
        [destruct (read_ok fs (batteryChargeFullPath (gPaths g)) 128) eqn:E2;
         [destruct (Int32.div (Int32.mul (atoi (read_buf fs (batteryChargeNowPath (gPaths g)) 128)) 100)
                      (atoi (read_buf fs (batteryChargeFullPath (gPaths g)) 128)))
            as [v|] eqn:Ed|]|].
      * right.
        exists (opens (batteryPresentPath (gPaths g))
                  ++ [EvSetBoolean gFieldIds.mBatteryPresent pv]
                  ++ opens (batteryChargeNowPath (gPaths g))
                  ++ opens (batteryChargeFullPath (gPaths g))
                  ++ [EvSetInt gFieldIds.mBatteryLevel v]), (Some v).
        split; [|split; [|split; [|intros; discriminate]]].
        -- intros w. rewrite Hrun. cbv zeta. rewrite setChargeLevel_run. cbv zeta.
           rewrite E1, E2, Ed. cbn [obj trace]. rewrite <- !List.app_assoc. reflexivity.
        -- forall_events.
        -- intros path Hin. in_trace; (split; [assumption|cbn; tauto]).
      * left. intros w. rewrite Hrun. cbv zeta. rewrite setChargeLevel_run. cbv zeta.
        rewrite E1, E2, Ed. reflexivity.
      * right.
        exists (opens (batteryPresentPath (gPaths g))
                  ++ [EvSetBoolean gFieldIds.mBatteryPresent pv]
                  ++ opens (batteryChargeNowPath (gPaths g))
                  ++ opens (batteryChargeFullPath (gPaths g))), None.
        split; [|split; [|split; [|intros; discriminate]]].
        -- intros w. rewrite Hrun. cbv zeta. rewrite setChargeLevel_run. cbv zeta.
           rewrite E1, E2. cbn [obj trace]. rewrite <- !List.app_assoc. reflexivity.
        -- forall_events.
        -- intros path Hin. in_trace; (split; [assumption|cbn; tauto]).
      * right.
        exists (opens (batteryPresentPath (gPaths g))
                  ++ [EvSetBoolean gFieldIds.mBatteryPresent pv]
                  ++ opens (batteryChargeNowPath (gPaths g))), None.
        split; [|split; [|split; [|intros; discriminate]]].
        -- intros w. rewrite Hrun. cbv zeta. rewrite setChargeLevel_run. cbv zeta.
           rewrite E1. cbn [obj trace]. rewrite <- !List.app_assoc. reflexivity.
        -- forall_events.
        -- intros path Hin. in_trace; (split; [assumption|cbn; tauto]).
    + right.
      set (lv := if read_ok fs (batteryCapacityPath (gPaths g)) 128
                 then atoi (read_buf fs (batteryCapacityPath (gPaths g)) 128) else 0).
      exists (opens (batteryPresentPath (gPaths g))
                ++ [EvSetBoolean gFieldIds.mBatteryPresent pv]
                ++ opens (batteryCapacityPath (gPaths g))
                ++ [EvSetInt gFieldIds.mBatteryLevel lv]), (Some lv).
      split; [|split; [|split; [|split; [reflexivity|]]]].
      * intros w. rewrite Hrun. cbv zeta. unfold setIntField, lv, read_ok, read_buf. run.
        destruct (readFromFile fs (batteryCapacityPath (gPaths g)) 128) as [nc bc].
        cbn [fst snd obj trace]. rewrite <- !List.app_assoc. reflexivity.
      * forall_events.
      * intros path Hin. in_trace; (split; [assumption|cbn; tauto]).
      * intros path Hin. in_trace; cbn; tauto.
Qed.

End LevelUniform.

(** ** More about a poll *)

Section PollMore.
Import CStr Libc Spec Trace PollFacts TraceFacts PollUniform LevelUniform.
Variable g : globals.
Variable fs : filesystem.

(** Runs the three blocks of a completed poll [H], leaving the final world
    explicit. *)
Ltac poll_blocks H evs1 ol R1 F1 O1 K1 v V evs3 F3 R3 :=
  destruct (update_level_uniform g fs) as [R1|(evs1 & ol & R1 & F1 & O1 & K1)];
  [unfold android_server_BatteryService_update, bind in H; rewrite R1 in H; discriminate|];
  destruct (update_chargers_uniform g fs) as (evs3 & F3 & R3);
  unfold android_server_BatteryService_update, bind in H;
  rewrite R1, update_attributes_run in H; cbv zeta in H;
  destruct (if read_ok fs (batteryVoltagePath (gPaths g)) 128 then _ else _) as [v|] eqn:V;
  [|discriminate];
  rewrite R3 in H; injection H as <-.

(** X2. On a poll that completes mBatteryPresent is stored with: the first 16
    bytes of the presence file hold something besides newlines and do not
    start with the character 0.  An unset, unopenable or empty presence file
    gives false. *)
Theorem update_present w w' :
  android_server_BatteryService_update g fs w = Done tt w' ->
  batteryPresent (obj w') =
    (read_ok fs (batteryPresentPath (gPaths g)) 16
     && negb (Ascii.eqb (char_at (read_buf fs (batteryPresentPath (gPaths g)) 16) 0) "0"))
  /\ (Spec.content fs (batteryPresentPath (gPaths g)) = None ->
      batteryPresent (obj w') = false).
Proof.
  intros H. poll_blocks H evs1 ol R1 F1 O1 K1 v V evs3 F3 R3.
  split; [destruct ol; reflexivity|]. intros C.
  assert (E : read_ok fs (batteryPresentPath (gPaths g)) 16 = false)
    by (unfold read_ok; rewrite ReadFacts.readFromFile_content, C; reflexivity).
  destruct ol; cbn [obj put_boolean put_int batteryPresent]; rewrite E; reflexivity.
Qed.

(** X3. On a poll that completes mUsbOnline and mWirelessOnline are the
    disjunctions over the charger entries of "online reads as true and type
    classifies as USB (Wireless)"; unlike mAcOnline they are false when there
    is no charger entry. *)
Theorem update_usb_wireless w w' :
  android_server_BatteryService_update g fs w = Done tt w' ->
  usbOnline (obj w') = existsb (supplies fs ANDROID_POWER_SUPPLY_TYPE_USB) (gChargerNames g)
  /\ wirelessOnline (obj w')
     = existsb (supplies fs ANDROID_POWER_SUPPLY_TYPE_WIRELESS) (gChargerNames g)
  /\ (gChargerNames g = [] -> usbOnline (obj w') = false /\ wirelessOnline (obj w') = false).
Proof.
  intros H. poll_blocks H evs1 ol R1 F1 O1 K1 v V evs3 F3 R3.
  cbn [obj put_boolean usbOnline wirelessOnline].
  split; [reflexivity|]. split; [reflexivity|]. intros ->. split; reflexivity.
Qed.

(** X4. With a presence path and a capacity path, a poll that completes stores
    to mBatteryLevel the parsed content of the capacity file, or 0 when that
    read yields nothing (a previous level is not kept), and the presence and
    level block opens no other file than these two. *)
Theorem update_level_from_capacity w w' :
  isEmpty (batteryPresentPath (gPaths g)) = false ->
  isEmpty (batteryCapacityPath (gPaths g)) = false ->
  android_server_BatteryService_update g fs w = Done tt w' ->
  batteryLevel (obj w') =
    (if read_ok fs (batteryCapacityPath (gPaths g)) 128
     then atoi (read_buf fs (batteryCapacityPath (gPaths g)) 128)
     else 0)
  /\ exists w1,
       update_level g fs w = Done tt w1
       /\ exists evs, trace w1 = trace w ++ evs
            /\ forall path, In path (opened evs) ->
                 path = batteryPresentPath (gPaths g)
                 \/ path = batteryCapacityPath (gPaths g).
Proof.
  intros Ep Ec H. poll_blocks H evs1 ol R1 F1 O1 K1 v V evs3 F3 R3.
  destruct (K1 Ep Ec) as [-> Hop].
  split; [reflexivity|].
  eexists. split; [apply R1|]. exists evs1. split; [reflexivity|].
  intros path Hin. apply In_opened in Hin. apply Hop in Hin.
  destruct Hin as [<-|[<-|[]]]; auto.
Qed.

(** X5. A poll that completes opens only files it was told about: every path
    handed to open is non-empty and is one of the nine members of gPaths or
    the online or type file of a charger entry. *)
Theorem update_opens_only_known_files w w' :
  android_server_BatteryService_update g fs w = Done tt w' ->
  exists evs,
    trace w' = trace w ++ evs
    /\ forall path, In path (opened evs) ->
         isEmpty path = false
         /\ (In path (Observe.all_paths (gPaths g))
             \/ exists name, In name (gChargerNames g)
                  /\ (path = supply_file name "online" \/ path = supply_file name "type")).
Proof.
  intros H. poll_blocks H evs1 ol R1 F1 O1 K1 v V evs3 F3 R3.
  cbn [obj trace]. eexists. split; [rewrite <- !List.app_assoc; reflexivity|].
  intros path Hin. apply In_opened in Hin.
  repeat match goal with
         | Hx : In _ (_ ++ _) |- _ => apply in_app_or in Hx; destruct Hx as [Hx|Hx]
         | Hx : In (EvOpen _) (_ :: _) |- _ => destruct Hx as [Hx|Hx]; [discriminate|]
         | Hx : In _ [] |- _ => destruct Hx
         | Hx : In _ (if ?b then _ else _) |- _ => destruct b
         | Hx : In (EvOpen _) (opens _) |- _ =>
             apply In_opens_inv in Hx; destruct Hx as [-> ?]
         end;
    try (split; [assumption | left; unfold Observe.all_paths; cbn; tauto]).
  - destruct (O1 _ Hin) as [Hne Hp]. split; [exact Hne|]. left.
    unfold Observe.all_paths. cbn in Hp |- *. tauto.
  - rewrite List.Forall_forall in F3.
    destruct (F3 _ Hin) as [(name & Hn & Hc)|(b & v' & Hb)]; [|discriminate].
    split; [destruct Hc as [[= ->]|[= ->]]; reflexivity|].
    right. exists name. split; [exact Hn|]. destruct Hc as [[= ->]|[= ->]]; auto.
Qed.

(** X6. Polling again over an unchanged tree makes the same calls and leaves the
    object as the first poll left it: what a poll does depends on the tree
    and the statics only, not on the object. *)
Theorem update_twice w w' :
  android_server_BatteryService_update g fs w = Done tt w' ->
  exists evs w'',
    trace w' = trace w ++ evs
    /\ android_server_BatteryService_update g fs w' = Done tt w''
    /\ trace w'' = trace w' ++ evs
    /\ obj w'' = obj w'.
Proof.
  intros H. poll_blocks H evs1 ol R1 F1 O1 K1 v V evs3 F3 R3.
  eexists _, _. split; [cbn [trace]; rewrite <- !List.app_assoc; reflexivity|].
  split.
  - unfold android_server_BatteryService_update, bind.
    rewrite R1, update_attributes_run. cbv zeta. rewrite V, R3. reflexivity.
  - split; [repeat first [rewrite <- List.app_assoc | progress cbn [app trace]]; reflexivity|].
    cbn [obj].
    destruct ol, (read_ok fs (batteryHealthPath (gPaths g)) 128),
             (read_ok fs (batteryTechnologyPath (gPaths g)) 128); reflexivity.
Qed.

Lemma update_level_traps :
  isEmpty (batteryPresentPath (gPaths g)) = false ->
  isEmpty (batteryCapacityPath (gPaths g)) = true ->
  read_ok fs (batteryChargeNowPath (gPaths g)) 128 = true ->
  read_ok fs (batteryChargeFullPath (gPaths g)) 128 = true ->
  Int32.traps (Int32.mul (atoi (read_buf fs (batteryChargeNowPath (gPaths g)) 128)) 100)
              (atoi (read_buf fs (batteryChargeFullPath (gPaths g)) 128)) ->
  forall w, update_level g fs w = Crash SIGFPE.
Proof.
  intros Ep Ec E1 E2 Ez w. apply Int32Facts.div_None in Ez.
  unfold update_level, setBooleanField. rewrite Ep, Ec. run.
  destruct (readFromFile fs (batteryPresentPath (gPaths g)) 16) as [np bp].
  rewrite setChargeLevel_run. cbv zeta. rewrite E1, E2, Ez. reflexivity.
Qed.

Lemma update_level_completes w :
  (isEmpty (batteryPresentPath (gPaths g)) = true
   \/ isEmpty (batteryCapacityPath (gPaths g)) = false
   \/ read_ok fs (batteryChargeNowPath (gPaths g)) 128 = false
   \/ read_ok fs (batteryChargeFullPath (gPaths g)) 128 = false
   \/ ~ Int32.traps
          (Int32.mul (atoi (read_buf fs (batteryChargeNowPath (gPaths g)) 128)) 100)
          (atoi (read_buf fs (batteryChargeFullPath (gPaths g)) 128))) ->
  exists w1, update_level g fs w = Done tt w1.
Proof.
  intros Hl.
  destruct (update_level_uniform g fs) as [R1|(evs1 & ol & R1 & _)]; [|eauto].
  exfalso. specialize (R1 w). revert R1.
  unfold update_level, setBooleanField, setIntField. run.
  destruct (readFromFile fs (batteryPresentPath (gPaths g)) 16) as [np bp].
  destruct (isEmpty (batteryPresentPath (gPaths g))); [discriminate|].
  destruct (isEmpty (batteryCapacityPath (gPaths g))).
  - rewrite setChargeLevel_run. cbv zeta.
    destruct (read_ok fs (batteryChargeNowPath (gPaths g)) 128); [|discriminate].
    destruct (read_ok fs (batteryChargeFullPath (gPaths g)) 128); [|discriminate].
    destruct Hl as [?|[?|[?|[?|Hl]]]]; try discriminate.
    rewrite (Int32Facts.div_Some _ _ Hl). discriminate.
  - destruct (readFromFile fs (batteryCapacityPath (gPaths g)) 128). discriminate.
Qed.

(** X7. A poll ends in the division trap exactly when a division it performs
    is on trapping operands (a zero divisor, or INT_MIN / -1): the level
    block's, when the presence path is set, the capacity path is not and both
    reads of the charge pair succeed, or the voltage division, when the
    voltage read succeeds; in every other case it completes. *)
Theorem update_traps_iff w :
  let p := gPaths g in
  let level_traps :=
    isEmpty (batteryPresentPath p) = false
    /\ isEmpty (batteryCapacityPath p) = true
    /\ read_ok fs (batteryChargeNowPath p) 128 = true
    /\ read_ok fs (batteryChargeFullPath p) 128 = true
    /\ (atoi (read_buf fs (batteryChargeFullPath p) 128) = 0
        \/ (Int32.mul (atoi (read_buf fs (batteryChargeNowPath p) 128)) 100 = Int32.INT_MIN
            /\ atoi (read_buf fs (batteryChargeFullPath p) 128) = -1)) in
  let voltage_traps :=
    read_ok fs (batteryVoltagePath p) 128 = true
    /\ (gVoltageDivisor g = 0
        \/ (atoi (read_buf fs (batteryVoltagePath p) 128) = Int32.INT_MIN
            /\ gVoltageDivisor g = -1)) in
  (android_server_BatteryService_update g fs w = Crash SIGFPE
   <-> level_traps \/ voltage_traps)
  /\ ((exists w', android_server_BatteryService_update g fs w = Done tt w')
      <-> ~ (level_traps \/ voltage_traps)).
Proof.
  cbv zeta.
  fold (Int32.traps
          (Int32.mul (atoi (read_buf fs (batteryChargeNowPath (gPaths g)) 128)) 100)
          (atoi (read_buf fs (batteryChargeFullPath (gPaths g)) 128))).
  fold (Int32.traps (atoi (read_buf fs (batteryVoltagePath (gPaths g)) 128))
                    (gVoltageDivisor g)).
  set (LT := isEmpty _ = false /\ _).
  set (VT := read_ok _ (batteryVoltagePath _) _ = true /\ _).
  assert (Hcrash : LT \/ VT -> android_server_BatteryService_update g fs w = Crash SIGFPE).
  { intros [(Ep & Ec & E1 & E2 & Ez)|(Ev & Ed)];
      unfold android_server_BatteryService_update, bind.
    - rewrite update_level_traps by assumption. reflexivity.
    - destruct (update_level_uniform g fs) as [R1|(evs1 & ol & R1 & _)];
        rewrite R1; [reflexivity|].
      apply Int32Facts.div_None in Ed.
      rewrite update_attributes_run. cbv zeta. rewrite Ev, Ed. reflexivity. }
  assert (Hdone : ~ (LT \/ VT) ->
                  exists w', android_server_BatteryService_update g fs w = Done tt w').
  { intros Hn.
    assert (Hl : isEmpty (batteryPresentPath (gPaths g)) = true
                 \/ isEmpty (batteryCapacityPath (gPaths g)) = false
                 \/ read_ok fs (batteryChargeNowPath (gPaths g)) 128 = false
                 \/ read_ok fs (batteryChargeFullPath (gPaths g)) 128 = false
                 \/ ~ Int32.traps
                        (Int32.mul
                           (atoi (read_buf fs (batteryChargeNowPath (gPaths g)) 128)) 100)
                        (atoi (read_buf fs (batteryChargeFullPath (gPaths g)) 128))).
    { destruct (isEmpty (batteryPresentPath (gPaths g))); [auto|].
      destruct (isEmpty (batteryCapacityPath (gPaths g))); [|auto].
      destruct (read_ok fs (batteryChargeNowPath (gPaths g)) 128); [|auto].
      destruct (read_ok fs (batteryChargeFullPath (gPaths g)) 128); [|auto].
      do 4 right. intros Ez. apply Hn. left. unfold LT. auto. }
    destruct (update_level_completes w Hl) as (w1 & L).
    unfold android_server_BatteryService_update, bind. rewrite L.
    rewrite update_attributes_run. cbv zeta.
    destruct (update_chargers_uniform g fs) as (evs3 & _ & R3).
    destruct (read_ok fs (batteryVoltagePath (gPaths g)) 128) eqn:Ev;
      [|rewrite R3; eauto].
    destruct (Int32Facts.traps_dec
                (atoi (read_buf fs (batteryVoltagePath (gPaths g)) 128))
                (gVoltageDivisor g)) as [Ed|Ed].
    - exfalso. apply Hn. right. unfold VT. auto.
    - rewrite (Int32Facts.div_Some _ _ Ed), R3. eauto. }
  assert (Hdec : (LT \/ VT) \/ ~ (LT \/ VT)).
  { unfold LT, VT.
    destruct (isEmpty (batteryPresentPath (gPaths g))),
             (isEmpty (batteryCapacityPath (gPaths g))),
             (read_ok fs (batteryChargeNowPath (gPaths g)) 128),
             (read_ok fs (batteryChargeFullPath (gPaths g)) 128),
             (read_ok fs (batteryVoltagePath (gPaths g)) 128),
             (Int32Facts.traps_dec
                (Int32.mul (atoi (read_buf fs (batteryChargeNowPath (gPaths g)) 128)) 100)
                (atoi (read_buf fs (batteryChargeFullPath (gPaths g)) 128))),
             (Int32Facts.traps_dec
                (atoi (read_buf fs (batteryVoltagePath (gPaths g)) 128))
                (gVoltageDivisor g));
      intuition congruence. }
  split; split.
  - intros H. destruct Hdec as [?|Hn]; [assumption|].
    destruct (Hdone Hn) as (w' & Hw). congruence.
  - exact Hcrash.
  - intros (w' & Hw) Hc. pose proof (Hcrash Hc) as E. congruence.
  - exact Hdone.
Qed.

End PollMore.

(** ** More about discovery *)

Section DiscoveryMore.
Import CStr Spec Observe.
Variable fs : filesystem.

Lemma register_fold g :
  register_android_server_BatteryService fs g = fold_left (scan_entry fs) (entries fs) g.
Proof.
  unfold register_android_server_BatteryService, entries.
  destruct (fs_dir fs); reflexivity.
Qed.

Lemma scan_battery_chargers name g :
  gChargerNames (scan_battery fs name g) = gChargerNames g.
Proof. unfold scan_battery. destruct (scan_voltage fs name _). reflexivity. Qed.

Lemma scan_entry_chargers g name :
  gChargerNames (scan_entry fs g name) =
  gChargerNames g ++ (if charger_entry fs name then [name] else []).
Proof.
  unfold scan_entry, charger_entry.
  destruct (is_dot_entry name); cbn [negb andb]; [now rewrite List.app_nil_r|].
  destruct (readPowerSupplyType fs (supply_file name "type")); cbn [is_charger_type andb];
    rewrite ?scan_battery_chargers, ?List.app_nil_r; try reflexivity;
    unfold scan_charger; destruct (access fs _); cbn; now rewrite ?List.app_nil_r.
Qed.

(** X8. Discovery appends to gChargerNames, in directory order, exactly the
    listed entries other than "." and ".." whose type is AC, USB or Wireless
    and whose online file is readable. *)
Theorem register_chargers g :
  gChargerNames (register_android_server_BatteryService fs g) =
  gChargerNames g ++ List.filter (charger_entry fs) (entries fs).
Proof.
  rewrite register_fold. revert g.
  induction (entries fs) as [|name rest IH]; intros g; cbn [fold_left List.filter].
  - now rewrite List.app_nil_r.
  - rewrite IH, scan_entry_chargers.
    destruct (charger_entry fs name); cbn [app];
      rewrite <- ?List.app_assoc, ?List.app_nil_r; reflexivity.
Qed.

(** X9. An entry is skipped as "." or ".." exactly when its name, as a C string,
    is one of the two; a skipped entry and an entry whose type is Unknown
    leave the statics as they are. *)
Theorem scan_entry_skips g name :
  (is_dot_entry name = true <-> c_str name = "." \/ c_str name = "..")
  /\ (is_dot_entry name = true -> scan_entry fs g name = g)
  /\ (readPowerSupplyType fs (supply_file name "type") = ANDROID_POWER_SUPPLY_TYPE_UNKNOWN ->
      scan_entry fs g name = g).
Proof.
  split; [|split].
  - unfold is_dot_entry.
    destruct name as [|a [|b [|c rest]]]; cbn [char_at String.get c_str];
      repeat match goal with
             | |- context [Ascii.eqb ?x ?y] => destruct (Ascii.eqb_spec x y); subst
             end;
      cbn [andb orb c_str Ascii.eqb]; cbn;
      split; try discriminate; try reflexivity; try tauto;
      try (intros [H|H]; discriminate H || (injection H; intros; subst; congruence));
      auto.
  - intros H. unfold scan_entry. now rewrite H.
  - intros H. unfold scan_entry. rewrite H. destruct (is_dot_entry name); reflexivity.
Qed.

End DiscoveryMore.

Section DiscoveryInvariants.
Import CStr Spec Observe.
Variable fs : filesystem.

Let ok (path : string) : Prop := path = EmptyString \/ access fs path = true.

Lemma paths_readable_fields p :
  paths_readable fs p <->
  ok (batteryStatusPath p) /\ ok (batteryHealthPath p) /\ ok (batteryPresentPath p)
  /\ ok (batteryCapacityPath p) /\ ok (batteryChargeNowPath p)
  /\ ok (batteryChargeFullPath p) /\ ok (batteryVoltagePath p)
  /\ ok (batteryTemperaturePath p) /\ ok (batteryTechnologyPath p).
Proof.
  unfold paths_readable, all_paths, ok.
  rewrite !List.Forall_cons_iff. rewrite List.Forall_nil_iff. tauto.
Qed.

Lemma scan_one_readable leaf set name p :
  (forall v q, access fs v = true -> paths_readable fs q -> paths_readable fs (set v q)) ->
  paths_readable fs p -> paths_readable fs (scan_one fs leaf set name p).
Proof.
  intros Hs Hp. unfold scan_one.
  destruct (access fs (supply_file name leaf)) eqn:E; [apply Hs; assumption | exact Hp].
Qed.

Lemma set_readable :
  forall v q, access fs v = true -> paths_readable fs q ->
    paths_readable fs (set_batteryStatusPath v q)
    /\ paths_readable fs (set_batteryHealthPath v q)
    /\ paths_readable fs (set_batteryPresentPath v q)
    /\ paths_readable fs (set_batteryCapacityPath v q)
    /\ paths_readable fs (set_batteryChargeNowPath v q)
    /\ paths_readable fs (set_batteryChargeFullPath v q)
    /\ paths_readable fs (set_batteryVoltagePath v q)
    /\ paths_readable fs (set_batteryTemperaturePath v q)
    /\ paths_readable fs (set_batteryTechnologyPath v q).
Proof.
  intros v q Hv Hq. apply paths_readable_fields in Hq.
  destruct Hq as (H1 & H2 & H3 & H4 & H5 & H6 & H7 & H8 & H9).
  rewrite !paths_readable_fields. unfold ok in *. cbn.
  repeat match goal with |- _ /\ _ => split end;
    first [assumption | right; exact Hv].
Qed.

Lemma scan_battery_readable name g :
  paths_readable fs (gPaths g) -> paths_readable fs (gPaths (scan_battery fs name g)).
Proof.
  intros H. destruct (scan_battery_steps fs name g) as [-> _]. cbv zeta.
  apply scan_one_readable; [intros v q Hv Hq; apply (set_readable v q Hv Hq)|].
  assert (H3 : paths_readable fs
                 (scan_one fs "present" set_batteryPresentPath name
                    (scan_one fs "health" set_batteryHealthPath name
                       (scan_one fs "status" set_batteryStatusPath name (gPaths g))))).
  { repeat (apply scan_one_readable;
            [intros v q Hv Hq; apply (set_readable v q Hv Hq)|]). exact H. }
  set (p3 := scan_one fs "present" _ name _) in *.
  assert (H4 : paths_readable fs (scan_capacity fs name p3)).
  { unfold scan_capacity.
    repeat match goal with
           | |- context [if access fs ?x then _ else _] => destruct (access fs x) eqn:?
           end;
      repeat first [assumption | apply set_readable]. }
  set (p4 := scan_capacity fs name p3) in *.
  assert (H5 : paths_readable fs (fst (scan_voltage fs name (p4, gVoltageDivisor g)))).
  { unfold scan_voltage.
    repeat match goal with
           | |- context [if access fs ?x then _ else _] => destruct (access fs x) eqn:?
           end; cbn [fst];
      repeat first [assumption | apply set_readable]. }
  unfold scan_temperature.
  repeat match goal with
         | |- context [if access fs ?x then _ else _] => destruct (access fs x) eqn:?
         end;
    repeat first [assumption | apply set_readable].
Qed.

Lemma scan_entry_readable g name :
  paths_readable fs (gPaths g) -> paths_readable fs (gPaths (scan_entry fs g name)).
Proof.
  intros H. unfold scan_entry. destruct (is_dot_entry name); [exact H|].
  destruct (readPowerSupplyType fs (supply_file name "type")); try exact H;
    try (unfold scan_charger; destruct (access fs _); exact H).
  apply scan_battery_readable, H.
Qed.

(** X10. Discovery records only files it found readable: if every member of
    gPaths is unset or readable before, so it is after; from the initial
    statics every path is unset or readable. *)
Theorem register_paths_readable g :
  (paths_readable fs (gPaths g) ->
   paths_readable fs (gPaths (register_android_server_BatteryService fs g)))
  /\ forall k,
       paths_readable fs (gPaths (register_android_server_BatteryService fs (initial_globals k))).
Proof.
  assert (Hstep : forall g0, paths_readable fs (gPaths g0) ->
                    paths_readable fs (gPaths (register_android_server_BatteryService fs g0))).
  { intros g0. rewrite register_fold. revert g0.
    induction (entries fs) as [|name rest IH]; intros g0 H; [exact H|].
    cbn [fold_left]. apply IH, scan_entry_readable, H. }
  split; [apply Hstep|]. intros k. apply Hstep.
  apply paths_readable_fields. cbn. unfold ok.
  repeat match goal with |- _ /\ _ => split end; left; reflexivity.
Qed.

End DiscoveryInvariants.

Section DiscoveryResults.
Import CStr Spec Observe.
Variable fs : filesystem.

Lemma fold_left_last {A B} (P : A -> bool) (f : A -> B) (l : list A) (b : B) :
  fold_left (fun acc x => if P x then f x else acc) l b =
  match List.find P (rev l) with
  | Some x => f x
  | None => b
  end.
Proof.
  induction l as [|x l IH] using rev_ind; [reflexivity|].
  rewrite fold_left_app, rev_unit. cbn [fold_left List.find].
  destruct (P x); [reflexivity | exact IH].
Qed.

Lemma fold_left_proj {A B C} (step : A -> B -> A) (proj : A -> C) (upd : C -> B -> C)
    (l : list B) (a : A) :
  (forall a x, proj (step a x) = upd (proj a) x) ->
  proj (fold_left step l a) = fold_left upd l (proj a).
Proof.
  intros H. revert a. induction l as [|x l IH]; intros a; [reflexivity|].
  cbn [fold_left]. now rewrite IH, H.
Qed.

Lemma scan_battery_status name g :
  batteryStatusPath (gPaths (scan_battery fs name g)) =
  if access fs (supply_file name "status") then supply_file name "status"
  else batteryStatusPath (gPaths g).
Proof.
  destruct (scan_battery_steps fs name g) as [-> _]. cbv zeta.
  rewrite scan_one_keeps, scan_temperature_keeps by (intros ? ?; reflexivity).
  rewrite (scan_voltage_keeps fs name batteryStatusPath) by (intros ? ?; reflexivity).
  rewrite scan_capacity_keeps by (intros ? ?; reflexivity).
  rewrite !scan_one_keeps by (intros ? ?; reflexivity).
  unfold scan_one. destruct (access fs _); reflexivity.
Qed.

Lemma scan_battery_health name g :
  batteryHealthPath (gPaths (scan_battery fs name g)) =
  if access fs (supply_file name "health") then supply_file name "health"
  else batteryHealthPath (gPaths g).
Proof.
  destruct (scan_battery_steps fs name g) as [-> _]. cbv zeta.
  rewrite scan_one_keeps, scan_temperature_keeps by (intros ? ?; reflexivity).
  rewrite (scan_voltage_keeps fs name batteryHealthPath) by (intros ? ?; reflexivity).
  rewrite scan_capacity_keeps by (intros ? ?; reflexivity).
  rewrite scan_one_keeps by (intros ? ?; reflexivity).
  unfold scan_one at 1. destruct (access fs (supply_file name "health")); [reflexivity|].
  now rewrite scan_one_keeps by (intros ? ?; reflexivity).
Qed.

Lemma scan_battery_present name g :
  batteryPresentPath (gPaths (scan_battery fs name g)) =
  if access fs (supply_file name "present") then supply_file name "present"
  else batteryPresentPath (gPaths g).
Proof.
  destruct (scan_battery_steps fs name g) as [-> _]. cbv zeta.
  rewrite scan_one_keeps, scan_temperature_keeps by (intros ? ?; reflexivity).
  rewrite (scan_voltage_keeps fs name batteryPresentPath) by (intros ? ?; reflexivity).
  rewrite scan_capacity_keeps by (intros ? ?; reflexivity).
  unfold scan_one at 1. destruct (access fs (supply_file name "present")); [reflexivity|].
  now rewrite !scan_one_keeps by (intros ? ?; reflexivity).
Qed.

Lemma scan_battery_technology name g :
  batteryTechnologyPath (gPaths (scan_battery fs name g)) =
  if access fs (supply_file name "technology") then supply_file name "technology"
  else batteryTechnologyPath (gPaths g).
Proof.
  destruct (scan_battery_steps fs name g) as [-> _]. cbv zeta.
  unfold scan_one at 1. destruct (access fs (supply_file name "technology")); [reflexivity|].
  rewrite scan_temperature_keeps by (intros ? ?; reflexivity).
  rewrite (scan_voltage_keeps fs name batteryTechnologyPath) by (intros ? ?; reflexivity).
  rewrite scan_capacity_keeps by (intros ? ?; reflexivity).
  now rewrite !scan_one_keeps by (intros ? ?; reflexivity).
Qed.

Lemma scan_battery_temperature name g :
  batteryTemperaturePath (gPaths (scan_battery fs name g)) =
  if access fs (supply_file name "temp") then supply_file name "temp"
  else if access fs (supply_file name "batt_temp") then supply_file name "batt_temp"
  else batteryTemperaturePath (gPaths g).
Proof.
  destruct (scan_battery_steps fs name g) as [-> _]. cbv zeta.
  rewrite scan_one_keeps by (intros ? ?; reflexivity).
  unfold scan_temperature.
  destruct (access fs (supply_file name "temp")); [reflexivity|].
  destruct (access fs (supply_file name "batt_temp")); [reflexivity|].
  rewrite (scan_voltage_keeps fs name batteryTemperaturePath) by (intros ? ?; reflexivity).
  rewrite scan_capacity_keeps by (intros ? ?; reflexivity).
  now rewrite !scan_one_keeps by (intros ? ?; reflexivity).
Qed.

(** How one entry changes a member [proj] of gPaths, given what the battery
    block does to it. *)
Lemma scan_entry_path (proj : PowerSupplyPaths -> string)
    (has : string -> bool) (file : string -> string) g name :
  (forall g0, proj (gPaths (scan_battery fs name g0)) =
              if has name then file name else proj (gPaths g0)) ->
  proj (gPaths (scan_entry fs g name)) =
  if battery_entry fs name && has name then file name else proj (gPaths g).
Proof.
  intros Hb. unfold scan_entry, battery_entry.
  destruct (is_dot_entry name); [reflexivity|]. cbn [negb andb].
  destruct (readPowerSupplyType fs (supply_file name "type")); cbn [type_eqb andb];
    try reflexivity; try (unfold scan_charger; destruct (access fs _); reflexivity).
  apply Hb.
Qed.

Lemma register_path (proj : PowerSupplyPaths -> string)
    (has : string -> bool) (file : string -> string) g :
  (forall name g0, proj (gPaths (scan_battery fs name g0)) =
                   if has name then file name else proj (gPaths g0)) ->
  proj (gPaths (register_android_server_BatteryService fs g)) =
  match List.find (fun name => battery_entry fs name && has name) (rev (entries fs)) with
  | Some name => file name
  | None => proj (gPaths g)
  end.
Proof.
  intros Hb. rewrite register_fold.
  rewrite (fold_left_proj (scan_entry fs) (fun g0 => proj (gPaths g0))
             (fun acc name => if battery_entry fs name && has name then file name else acc)).
  - apply fold_left_last.
  - intros a x. apply scan_entry_path. intros g0. apply Hb.
Qed.

(** X11. With several Battery directories the last one wins, attribute by
    attribute: after discovery the status, health, presence and technology
    paths are those of the last listed Battery directory in which that file is
    readable, the temperature path that of the last one with a readable temp
    or batt_temp (temp preferred), and a path stays as it was when no Battery
    directory has the file. *)
Theorem register_last_battery_wins g :
  let p := gPaths g in
  let p' := gPaths (register_android_server_BatteryService fs g) in
  let last leaf :=
    List.find (fun name => battery_entry fs name && access fs (supply_file name leaf))
              (rev (entries fs)) in
  let from leaf old :=
    match last leaf with
    | Some name => supply_file name leaf
    | None => old
    end in
  batteryStatusPath p' = from "status" (batteryStatusPath p)
  /\ batteryHealthPath p' = from "health" (batteryHealthPath p)
  /\ batteryPresentPath p' = from "present" (batteryPresentPath p)
  /\ batteryTechnologyPath p' = from "technology" (batteryTechnologyPath p)
  /\ batteryTemperaturePath p' =
     match List.find (fun name => battery_entry fs name
                                  && (access fs (supply_file name "temp")
                                      || access fs (supply_file name "batt_temp")))
                     (rev (entries fs)) with
     | Some name => if access fs (supply_file name "temp")
                    then supply_file name "temp" else supply_file name "batt_temp"
     | None => batteryTemperaturePath p
     end.
Proof.
  cbv zeta. repeat match goal with |- _ /\ _ => split end.
  - apply (register_path batteryStatusPath
             (fun name => access fs (supply_file name "status"))
             (fun name => supply_file name "status")).
    intros. apply scan_battery_status.
  - apply (register_path batteryHealthPath
             (fun name => access fs (supply_file name "health"))
             (fun name => supply_file name "health")).
    intros. apply scan_battery_health.
  - apply (register_path batteryPresentPath
             (fun name => access fs (supply_file name "present"))
             (fun name => supply_file name "present")).
    intros. apply scan_battery_present.
  - apply (register_path batteryTechnologyPath
             (fun name => access fs (supply_file name "technology"))
             (fun name => supply_file name "technology")).
    intros. apply scan_battery_technology.
  - apply (register_path batteryTemperaturePath
             (fun name => access fs (supply_file name "temp")
                          || access fs (supply_file name "batt_temp"))
             (fun name => if access fs (supply_file name "temp")
                          then supply_file name "temp" else supply_file name "batt_temp")).
    intros name g0. rewrite scan_battery_temperature.
    destruct (access fs (supply_file name "temp")),
             (access fs (supply_file name "batt_temp")); reflexivity.
Qed.

(** X12. gVoltageDivisor after discovery is 1000 when some listed Battery
    directory has a readable voltage_now and is otherwise what it was; from
    the initial statics it is 1000 or 1, never zero. *)
Theorem register_voltage_divisor g :
  gVoltageDivisor (register_android_server_BatteryService fs g) =
    (if existsb (fun name => battery_entry fs name
                             && access fs (supply_file name "voltage_now"))
                (entries fs)
     then 1000 else gVoltageDivisor g)
  /\ forall k,
       gVoltageDivisor (register_android_server_BatteryService fs (initial_globals k)) <> 0.
Proof.
  assert (Hstep : forall g0 name,
            gVoltageDivisor (scan_entry fs g0 name) =
            if battery_entry fs name && access fs (supply_file name "voltage_now")
            then 1000 else gVoltageDivisor g0).
  { intros g0 name. unfold scan_entry, battery_entry.
    destruct (is_dot_entry name); [reflexivity|]. cbn [negb andb].
    destruct (readPowerSupplyType fs (supply_file name "type")); cbn [type_eqb andb];
      try reflexivity; try (unfold scan_charger; destruct (access fs _); reflexivity).
    pose proof (scan_battery_voltage fs name g0) as E. cbv zeta in E.
    destruct (access fs (supply_file name "voltage_now"));
      [|destruct (access fs (supply_file name "batt_vol"))];
      injection E as _ ->; reflexivity. }
  assert (Hall : forall g0,
            gVoltageDivisor (register_android_server_BatteryService fs g0) =
            if existsb (fun name => battery_entry fs name
                                    && access fs (supply_file name "voltage_now"))
                       (entries fs)
            then 1000 else gVoltageDivisor g0).
  { intros g0. rewrite register_fold. revert g0.
    induction (entries fs) as [|name rest IH]; intros g0; [reflexivity|].
    cbn [fold_left existsb]. rewrite IH, Hstep.
    destruct (battery_entry fs name && access fs (supply_file name "voltage_now"));
      cbn [orb]; [destruct (existsb _ rest)|]; reflexivity. }
  split; [apply Hall|]. intros k. rewrite Hall.
  destruct (existsb _ _); cbn; discriminate.
Qed.

(** X13. When no listed entry is a Battery directory or a recordable charger (the
    directory cannot be opened, is empty, or holds only ".", ".." and entries
    of unknown type or chargers without a readable online file), discovery
    changes nothing. *)
Theorem register_nothing_found g :
  Forall (fun name => battery_entry fs name = false /\ charger_entry fs name = false)
         (entries fs) ->
  register_android_server_BatteryService fs g = g.
Proof.
  rewrite register_fold. intros F. revert g.
  induction F as [|name rest [Hb Hc] _ IH]; intros g; [reflexivity|].
  cbn [fold_left].
  replace (scan_entry fs g name) with g; [apply IH|].
  unfold scan_entry, battery_entry, charger_entry in *.
  destruct (is_dot_entry name); [reflexivity|]. cbn [negb andb] in *.
  destruct (readPowerSupplyType fs (supply_file name "type"));
    cbn [type_eqb is_charger_type andb] in *; try reflexivity; try discriminate;
    unfold scan_charger; rewrite Hc; reflexivity.
Qed.

End DiscoveryResults.

(** ** What a read returns *)

Section ReadMore.
Import CStr CStrFacts Spec ReadFacts.

Lemma rtrim_idempotent s : rtrim (rtrim s) = rtrim s.
Proof.
  induction s as [|c s IH]; [reflexivity|]. cbn [rtrim].
  destruct (rtrim s) as [|d t] eqn:E.
  - destruct (Ascii.eqb_spec c LF) as [->|Hc]; [reflexivity|].
    cbn [rtrim]. destruct (Ascii.eqb_spec c LF); [contradiction | reflexivity].
  - cbn [rtrim]. cbn [rtrim] in IH. rewrite IH. reflexivity.
Qed.

Lemma length_rtrim_le s : (String.length (rtrim s) <= String.length s)%nat.
Proof.
  induction s as [|c s IH]; [reflexivity|]. cbn [rtrim String.length].
  destruct (rtrim s); [destruct (Ascii.eqb c LF); cbn; lia | cbn in *; lia].
Qed.

Lemma length_substring_le s : forall n, (String.length (String.substring 0 n s) <= n)%nat.
Proof.
  induction s as [|c s IH]; intros n; [destruct n; cbn; lia|].
  destruct n as [|n]; cbn; [lia|]. specialize (IH n). lia.
Qed.

(** X1. readFromFile returns -1 when the path is unset, cannot be opened or
    cannot be read.  Otherwise the buffer holds the first [size] bytes of the
    file without their trailing newlines, the count is the length of that
    text, between 0 and [size], and no newline is left at its end. *)
Theorem readFromFile_returns fs path size :
  match content fs path with
  | None => readFromFile fs path size = (-1, EmptyString)
  | Some bytes =>
      snd (readFromFile fs path size) = rtrim (String.substring 0 size bytes)
      /\ fst (readFromFile fs path size)
         = Z.of_nat (String.length (snd (readFromFile fs path size)))
      /\ 0 <= fst (readFromFile fs path size) <= Z.of_nat size
      /\ rtrim (snd (readFromFile fs path size)) = snd (readFromFile fs path size)
  end.
Proof.
  rewrite readFromFile_content.
  destruct (content fs path) as [bytes|]; [|reflexivity].
  cbv zeta. cbn [fst snd].
  split; [reflexivity|]. split; [reflexivity|]. split; [|apply rtrim_idempotent].
  pose proof (length_rtrim_le (String.substring 0 size bytes)).
  pose proof (length_substring_le bytes size). lia.
Qed.

End ReadMore.

(** ** Discovery and poll together *)

Section NothingFound.
Import CStr Libc Spec Trace Observe PollFacts TraceFacts.

(** X14. When discovery finds neither a Battery directory nor a recordable
    charger, every poll over any tree completes without opening a file and
    reports a mains-powered machine without battery: AC online, USB and
    wireless offline, battery absent, level 100, status Unknown, voltage and
    temperature 0; health and technology keep their values. *)
Theorem poll_with_nothing_found k fs0 fs w :
  Forall (fun name => battery_entry fs0 name = false /\ charger_entry fs0 name = false)
         (entries fs0) ->
  exists w' evs,
    android_server_BatteryService_update
      (register_android_server_BatteryService fs0 (initial_globals k)) fs w = Done tt w'
    /\ trace w' = trace w ++ evs
    /\ opened evs = []
    /\ obj w' = {| acOnline := true;
                   usbOnline := false;
                   wirelessOnline := false;
                   batteryPresent := false;
                   batteryStatus := statusUnknown k;
                   batteryHealth := batteryHealth (obj w);
                   batteryLevel := 100;
                   batteryVoltage := 0;
                   batteryTemperature := 0;
                   batteryTechnology := batteryTechnology (obj w) |}.
Proof.
  intros F. rewrite (register_nothing_found fs0 (initial_globals k) F).
  unfold android_server_BatteryService_update, bind at 1 2.
  rewrite (update_level_unset (initial_globals k) fs w eq_refl).
  rewrite update_attributes_run. cbv zeta. cbn.
  eexists _, _. split; [reflexivity|]. cbn [obj trace].
  split; [rewrite <- !List.app_assoc; reflexivity|]. split; reflexivity.
Qed.

End NothingFound.

(** ** Instances on the sample trees *)

Section MoreWitnesses.
Import CStr Libc Spec Trace Observe Examples MoreExamples.

Lemma update_present_witness :
  poll tablet fresh = Done tt (after (poll tablet fresh) fresh)
  /\ batteryPresent (obj (after (poll tablet fresh) fresh)) = true.
Proof.
  assert (H : poll tablet fresh = Done tt (after (poll tablet fresh) fresh))
    by (vm_compute; reflexivity).
  pose proof (proj1 (update_present (registered tablet) tablet fresh _ H)) as E.
  refine (conj H (eq_trans E _)). vm_compute. reflexivity.
Defined.

Lemma update_usb_wireless_witness :
  poll tablet fresh = Done tt (after (poll tablet fresh) fresh)
  /\ usbOnline (obj (after (poll tablet fresh) fresh)) = true
  /\ wirelessOnline (obj (after (poll tablet fresh) fresh)) = true.
Proof.
  assert (H : poll tablet fresh = Done tt (after (poll tablet fresh) fresh))
    by (vm_compute; reflexivity).
  destruct (update_usb_wireless (registered tablet) tablet fresh _ H) as (Eu & Ew & _).
  refine (conj H (conj (eq_trans Eu _) (eq_trans Ew _))); vm_compute; reflexivity.
Defined.

Lemma update_level_from_capacity_witness :
  isEmpty (batteryPresentPath (gPaths (registered tablet))) = false
  /\ isEmpty (batteryCapacityPath (gPaths (registered tablet))) = false
  /\ poll tablet fresh = Done tt (after (poll tablet fresh) fresh)
  /\ batteryLevel (obj (after (poll tablet fresh) fresh)) = 87.
Proof.
  assert (Ep : isEmpty (batteryPresentPath (gPaths (registered tablet))) = false)
    by (vm_compute; reflexivity).
  assert (Ec : isEmpty (batteryCapacityPath (gPaths (registered tablet))) = false)
    by (vm_compute; reflexivity).
  assert (H : poll tablet fresh = Done tt (after (poll tablet fresh) fresh))
    by (vm_compute; reflexivity).
  pose proof (proj1 (update_level_from_capacity (registered tablet) tablet fresh _ Ep Ec H))
    as E.
  refine (conj Ep (conj Ec (conj H (eq_trans E _)))). vm_compute. reflexivity.
Defined.

Lemma update_opens_only_known_files_witness :
  poll tablet fresh = Done tt (after (poll tablet fresh) fresh)
  /\ exists evs,
       trace (after (poll tablet fresh) fresh) = trace fresh ++ evs
       /\ forall path, In path (opened evs) -> isEmpty path = false.
Proof.
  assert (H : poll tablet fresh = Done tt (after (poll tablet fresh) fresh))
    by (vm_compute; reflexivity).
  destruct (update_opens_only_known_files (registered tablet) tablet fresh _ H)
    as (evs & T & K).
  refine (conj H (ex_intro _ evs (conj T (fun path Hin => proj1 (K path Hin))))).
Defined.

Lemma update_twice_witness :
  poll tablet fresh = Done tt (after (poll tablet fresh) fresh)
  /\ exists w'',
       poll tablet (after (poll tablet fresh) fresh) = Done tt w''
       /\ obj w'' = obj (after (poll tablet fresh) fresh).
Proof.
  assert (H : poll tablet fresh = Done tt (after (poll tablet fresh) fresh))
    by (vm_compute; reflexivity).
  destruct (update_twice (registered tablet) tablet fresh _ H)
    as (evs & w'' & _ & R & _ & O).
  exact (conj H (ex_intro _ w'' (conj R O))).
Defined.

Lemma scan_entry_skips_witness :
  is_dot_entry ".." = true
  /\ scan_entry tablet (registered tablet) ".." = registered tablet
  /\ readPowerSupplyType tablet (supply_file "hub" "type") = ANDROID_POWER_SUPPLY_TYPE_UNKNOWN
  /\ scan_entry tablet (registered tablet) "hub" = registered tablet.
Proof.
  assert (Hd : is_dot_entry ".." = true) by (vm_compute; reflexivity).
  assert (Hu : readPowerSupplyType tablet (supply_file "hub" "type")
               = ANDROID_POWER_SUPPLY_TYPE_UNKNOWN) by (vm_compute; reflexivity).
  exact (conj Hd
           (conj (proj1 (proj2 (scan_entry_skips tablet (registered tablet) "..")) Hd)
              (conj Hu
                 (proj2 (proj2 (scan_entry_skips tablet (registered tablet) "hub")) Hu)))).
Defined.

Lemma register_paths_readable_witness :
  paths_readable tablet (gPaths (initial_globals android))
  /\ paths_readable tablet (gPaths (registered tablet)).
Proof.
  assert (H0 : paths_readable tablet (gPaths (initial_globals android))).
  { unfold paths_readable. vm_compute.
    repeat (apply List.Forall_cons; [left; reflexivity|]). apply List.Forall_nil. }
  exact (conj H0 (proj1 (register_paths_readable tablet (initial_globals android)) H0)).
Defined.

Lemma register_nothing_found_witness :
  Forall (fun name => battery_entry desktop name = false /\ charger_entry desktop name = false)
         (entries desktop)
  /\ register_android_server_BatteryService desktop (initial_globals android)
     = initial_globals android.
Proof.
  assert (F : Forall (fun name => battery_entry desktop name = false
                                  /\ charger_entry desktop name = false)
                     (entries desktop)) by apply List.Forall_nil.
  exact (conj F (register_nothing_found desktop (initial_globals android) F)).
Defined.

Lemma poll_with_nothing_found_witness :
  Forall (fun name => battery_entry desktop name = false /\ charger_entry desktop name = false)
         (entries desktop)
  /\ exists w',
       android_server_BatteryService_update
         (register_android_server_BatteryService desktop (initial_globals android))
         tablet fresh = Done tt w'
       /\ batteryLevel (obj w') = 100 /\ acOnline (obj w') = true.
Proof.
  assert (F : Forall (fun name => battery_entry desktop name = false
                                  /\ charger_entry desktop name = false)
                     (entries desktop)) by apply List.Forall_nil.
  destruct (poll_with_nothing_found android desktop tablet fresh F)
    as (w' & evs & R & _ & _ & O).
  refine (conj F (ex_intro _ w' (conj R _))). rewrite O. split; reflexivity.
Defined.

Lemma update_traps_iff_witness :
  poll (phone "50" "0") fresh = Crash SIGFPE
  /\ poll (phone "536870912" "-1") fresh = Crash SIGFPE
  /\ exists w', poll tablet fresh = Done tt w'.
Proof.
  split; [|split].
  - apply (proj1 (update_traps_iff (registered (phone "50" "0")) (phone "50" "0") fresh)).
    left. vm_compute. repeat match goal with |- _ /\ _ => split end;
      first [reflexivity | left; reflexivity].
  - apply (proj1 (update_traps_iff (registered (phone "536870912" "-1"))
                                   (phone "536870912" "-1") fresh)).
    left. vm_compute. repeat match goal with |- _ /\ _ => split end;
      first [reflexivity | right; split; reflexivity].
  - apply (proj2 (update_traps_iff (registered tablet) tablet fresh)).
    vm_compute. intros [(_ & E & _)|(_ & [E|[_ E]])]; discriminate E.
Defined.

End MoreWitnesses.

(** ** The charge pair at poll time *)

Section ChargePair.
Import CStr Libc Spec Trace PollFacts TraceFacts PollUniform LevelUniform Examples.

(** X17. With a presence path and no capacity path, when the charge-now read
    yields nothing the charge-full file is not opened: the presence and level
    block opens at most the presence and charge-now files, stores nothing to
    mBatteryLevel, and a poll that completes leaves mBatteryLevel as it
    was. *)
Theorem update_charge_now_unreadable g fs w w' :
  isEmpty (batteryPresentPath (gPaths g)) = false ->
  isEmpty (batteryCapacityPath (gPaths g)) = true ->
  read_ok fs (batteryChargeNowPath (gPaths g)) 128 = false ->
  android_server_BatteryService_update g fs w = Done tt w' ->
  batteryLevel (obj w') = batteryLevel (obj w)
  /\ exists w1 evs,
       update_level g fs w = Done tt w1
       /\ trace w1 = trace w ++ evs
       /\ sets_int gFieldIds.mBatteryLevel evs = false
       /\ forall path, In path (opened evs) ->
            path = batteryPresentPath (gPaths g) \/ path = batteryChargeNowPath (gPaths g).
Proof.
  intros Ep Ec En H.
  assert (L : exists present,
            update_level g fs w =
            Done tt {| obj := put_boolean gFieldIds.mBatteryPresent present (obj w);
                       trace := trace w
                                ++ opens (batteryPresentPath (gPaths g))
                                ++ [EvSetBoolean gFieldIds.mBatteryPresent present]
                                ++ opens (batteryChargeNowPath (gPaths g)) |}).
  { unfold update_level, setBooleanField. rewrite Ep, Ec.
    cbv [bind readFromFileM record_opens ret SetBooleanField emit modify].
    destruct (readFromFile fs (batteryPresentPath (gPaths g)) 16) as [np bp].
    rewrite setChargeLevel_run. cbv zeta. rewrite En. cbn [obj trace].
    eexists. rewrite <- !List.app_assoc. reflexivity. }
  destruct L as (present & L).
  destruct (update_phases g fs w w' H) as (w1 & w2 & L' & A & C).
  rewrite L in L'. injection L' as <-.
  rewrite update_attributes_run in A. cbv zeta in A.
  destruct (if read_ok fs (batteryVoltagePath (gPaths g)) 128 then _ else _) as [v|];
    [|discriminate].
  injection A as <-.
  destruct (update_chargers_uniform g fs) as (evs3 & _ & R3).
  rewrite R3 in C. injection C as <-.
  split; [reflexivity|].
  eexists _, _. split; [exact L|]. cbn [trace]. split; [reflexivity|]. split.
  - autorewrite with trace. reflexivity.
  - intros path Hin. apply In_opened in Hin. in_trace; auto.
Qed.

Lemma update_charge_now_unreadable_witness :
  let g := registered (phone "50" "200") in
  let fs := {| fs_files := delete (supply_file "battery" "charge_now")
                             (fs_files (phone "50" "200"));
               fs_dir := fs_dir (phone "50" "200") |} in
  isEmpty (batteryPresentPath (gPaths g)) = false
  /\ isEmpty (batteryCapacityPath (gPaths g)) = true
  /\ read_ok fs (batteryChargeNowPath (gPaths g)) 128 = false
  /\ android_server_BatteryService_update g fs at_42
     = Done tt (after (android_server_BatteryService_update g fs at_42) at_42)
  /\ batteryLevel (obj (after (android_server_BatteryService_update g fs at_42) at_42)) = 42.
Proof.
  cbv zeta.
  set (g := registered (phone "50" "200")).
  set (fs := {| fs_files := _; fs_dir := _ |}).
  assert (Ep : isEmpty (batteryPresentPath (gPaths g)) = false) by (vm_compute; reflexivity).
  assert (Ec : isEmpty (batteryCapacityPath (gPaths g)) = true) by (vm_compute; reflexivity).
  assert (En : read_ok fs (batteryChargeNowPath (gPaths g)) 128 = false)
    by (vm_compute; reflexivity).
  assert (H : android_server_BatteryService_update g fs at_42
              = Done tt (after (android_server_BatteryService_update g fs at_42) at_42))
    by (vm_compute; reflexivity).
  exact (conj Ep (conj Ec (conj En (conj H
           (proj1 (update_charge_now_unreadable g fs at_42 _ Ep Ec En H)))))).
Defined.

Lemma setChargeLevel_exact_witness :
  let fs := phone "50" "200" in
  let g := registered fs in
  read_ok fs (batteryChargeNowPath (gPaths g)) 128 = true
  /\ read_ok fs (batteryChargeFullPath (gPaths g)) 128 = true
  /\ Int32.in_range (atoi (read_buf fs (batteryChargeNowPath (gPaths g)) 128) * 100)
  /\ atoi (read_buf fs (batteryChargeFullPath (gPaths g)) 128) <> 0
  /\ exists evs,
       setChargeLevel g fs gFieldIds.mBatteryLevel fresh =
       Done tt {| obj := put_int gFieldIds.mBatteryLevel
                           (Z.quot (atoi (read_buf fs (batteryChargeNowPath (gPaths g)) 128)
                                    * 100)
                                   (atoi (read_buf fs (batteryChargeFullPath (gPaths g)) 128)))
                           (obj fresh);
                  trace := trace fresh ++ evs |}.
Proof.
  cbv zeta.
  set (fs := phone "50" "200"). set (g := registered fs).
  assert (H1 : read_ok fs (batteryChargeNowPath (gPaths g)) 128 = true)
    by (vm_compute; reflexivity).
  assert (H2 : read_ok fs (batteryChargeFullPath (gPaths g)) 128 = true)
    by (vm_compute; reflexivity).
  assert (H3 : Int32.in_range (atoi (read_buf fs (batteryChargeNowPath (gPaths g)) 128) * 100))
    by (vm_compute; split; discriminate).
  assert (H4 : atoi (read_buf fs (batteryChargeFullPath (gPaths g)) 128) <> 0)
    by (vm_compute; discriminate).
  exact (conj H1 (conj H2 (conj H3 (conj H4
           (setChargeLevel_exact g fs gFieldIds.mBatteryLevel fresh H1 H2 H3 H4))))).
Defined.

Lemma setChargeLevel_unchanged_witness :
  let g := registered (phone "50" "200") in
  let fs := phone_full_gone "50" in
  (read_ok fs (batteryChargeNowPath (gPaths g)) 128 = false
   \/ read_ok fs (batteryChargeFullPath (gPaths g)) 128 = false)
  /\ exists evs,
       setChargeLevel g fs gFieldIds.mBatteryLevel at_42
       = Done tt {| obj := obj at_42; trace := trace at_42 ++ evs |}
       /\ sets_int gFieldIds.mBatteryLevel evs = false.
Proof.
  cbv zeta.
  assert (H : read_ok (phone_full_gone "50")
                (batteryChargeNowPath (gPaths (registered (phone "50" "200")))) 128 = false
              \/ read_ok (phone_full_gone "50")
                   (batteryChargeFullPath (gPaths (registered (phone "50" "200")))) 128 = false)
    by (right; vm_compute; reflexivity).
  exact (conj H (setChargeLevel_unchanged (registered (phone "50" "200"))
                   (phone_full_gone "50") gFieldIds.mBatteryLevel at_42 H)).
Defined.

End ChargePair.
